(** * NLTK machine-translation utilities: readers and modified n-gram precision

    A shallow embedding of [nltk/translate/util.py] (the phrase-table and
    ARPA language-model readers) and of the modified n-gram precision that
    [nltk/test/unit/translate/test_bleu.py] exercises, with the properties
    their specification states about them. *)

From Stdlib Require Import Ascii String QArith Floats.
From stdpp Require Import gmap strings list fin_maps.

Set Warnings "-inexact-float".
Open Scope string_scope.
Open Scope list_scope.

(** ** Python string primitives used by the readers *)

Module PyStr.

(** [str.isspace] on the code points U+0000..U+00FF, which is all that
    [bytes.decode('latin-1')] can produce: TAB, LF, VT, FF, CR, the four
    separators FS..US, SPACE, NEL and NBSP. *)
Definition is_space (c : ascii) : bool :=
  let n := nat_of_ascii c in
  (((9 <=? n) && (n <=? 13)) || ((28 <=? n) && (n <=? 32))
   || (n =? 133) || (n =? 160))%nat.

Definition TAB : string := String (ascii_of_nat 9) "".
Definition LF : string := String (ascii_of_nat 10) "".

Definition is_empty (s : string) : bool :=
  match s with "" => true | _ => false end.

(** [s.lstrip()], [s.rstrip()] and [s.strip()]. *)
Fixpoint lstrip (s : string) : string :=
  match s with
  | String c s' => if is_space c then lstrip s' else s
  | "" => ""
  end.

Fixpoint rstrip (s : string) : string :=
  match s with
  | String c s' =>
      let r := rstrip s' in
      if is_space c && is_empty r then "" else String c r
  | "" => ""
  end.

Definition strip (s : string) : string := rstrip (lstrip s).

(** Adds a character to the field being read, the head of [fields]. *)
Definition push (c : ascii) (fields : list string) : list string :=
  match fields with
  | w :: ws => String c w :: ws
  | [] => [String c ""]
  end.

(** [s.split()]: the maximal runs of non-whitespace characters. *)
Fixpoint split (s : string) : list string :=
  match s with
  | "" => []
  | String c s' =>
      if is_space c then split s'
      else match s' with
           | "" => [String c ""]
           | String c' _ =>
               if is_space c' then String c "" :: split s'
               else push c (split s')
           end
  end.

(** [s.split(sep)] for a non-empty [sep]: the text between the leftmost,
    non-overlapping occurrences of [sep]. [skip] counts the characters of an
    occurrence that are still to be dropped. *)
Fixpoint split_from (sep : string) (skip : nat) (s : string) : list string :=
  match s with
  | "" => [""]
  | String c s' =>
      match skip with
      | S k => split_from sep k s'
      | O =>
          if String.prefix sep s
          then "" :: split_from sep (String.length sep - 1) s'
          else push c (split_from sep 0 s')
      end
  end.

Definition split_on (sep s : string) : list string := split_from sep 0 s.

(** Iterating over a file opened in binary mode: each item is a line with
    its terminating LF, the last one possibly without. *)
Fixpoint readlines (content : string) : list string :=
  match content with
  | "" => []
  | String c rest =>
      if Ascii.eqb c (ascii_of_nat 10) then String c "" :: readlines rest
      else push c (readlines rest)
  end.

End PyStr.

(** ** nltk/translate/util.py *)

Module Util.
Import PyStr.

(** The exceptions the readers can raise. Python raises [ValueError] both
    for a failed tuple unpacking and for a string [float] cannot read; the
    argument records which. *)
Inductive cause : Type := Unpack | NotAFloat.

Inductive exn : Type :=
| ValueError (why : cause)
| IndexError.

Inductive result (A : Type) : Type :=
| Ok (a : A)
| Raise (e : exn).
Arguments Ok {A} a.
Arguments Raise {A} e.

#[export] Instance result_ret : MRet result := fun A a => Ok a.
#[export] Instance result_bind : MBind result := fun A B f r =>
  match r with
  | Ok a => f a
  | Raise e => Raise e
  end.

#[export] Instance result_fmap : FMap result := fun A B f r =>
  match r with
  | Ok a => Ok (f a)
  | Raise e => Raise e
  end.

(** [for line in fin: body], with the loop's state passed along; an
    exception raised by the body leaves the loop. *)
Fixpoint for_each {S : Type} (body : S -> string -> result S)
    (st : S) (lines : list string) : result S :=
  match lines with
  | [] => Ok st
  | line :: rest => st' ← body st line; for_each body st' rest
  end.

(** A value as a dictionary key comparison sees it: a string, or a tuple of
    strings. Values of different types are never equal. *)
Inductive pyobj : Type :=
| PyStr (s : string)
| PyTuple (items : list string).

Definition py_eq (a b : pyobj) : bool :=
  match a, b with
  | PyStr x, PyStr y => bool_decide (x = y)
  | PyTuple x, PyTuple y => bool_decide (x = y)
  | _, _ => false
  end.

(** [x in xs] *)
Definition py_in (x : pyobj) (xs : list pyobj) : bool := existsb (py_eq x) xs.

(** [d.keys()] of a dictionary whose keys are tuples of strings. *)
Definition dict_keys {V : Type} (d : gmap (list string) V) : list pyobj :=
  PyTuple <$> (map_to_list d).*1.

Section Readers.

(** The builtin [float] applied to a string: [None] when it raises
    [ValueError]. *)
Variable float_of_string : string -> option float.

Definition py_float (s : string) : result float :=
  match float_of_string s with
  | Some x => Ok x
  | None => Raise (ValueError NotAFloat)
  end.

(** The body of the loop of [read_phrase_table] (util.py, lines 56-62). *)
Definition phrase_table_line (phrase_table : gmap string (gmap string float))
    (line : string) : result (gmap string (gmap string float)) :=
  let line := split_on " ||| " (strip line) in
  match take 3 line with
  | [src; trg; probabilities] =>
      match split probabilities with
      | p :: _ =>
          prob ← py_float p;
          Ok (<[src := <[trg := prob]> (default ∅ (phrase_table !! src))]>
                phrase_table)
      | [] => Raise IndexError
      end
  | _ => Raise (ValueError Unpack)
  end.

(** [read_phrase_table], on the (decompressed) content of the file. *)
Definition read_phrase_table (content : string)
    : result (gmap string (gmap string float)) :=
  for_each phrase_table_line ∅ (readlines content).

(** The ' ||| '-delimited fields of a line. *)
Definition fields (line : string) : list string :=
  split_on " ||| " (strip line).

(** What a line states: its source phrase, its target phrase and the first
    whitespace-separated item of its third field, read as a number. [None]
    for a line with fewer than three fields, an empty third field, or an
    item [float] refuses. *)
Definition record (line : string) : option (string * string * float) :=
  match fields line with
  | src :: trg :: probabilities :: _ =>
      match split probabilities with
      | p :: _ =>
          match float_of_string p with
          | Some x => Some (src, trg, x)
          | None => None
          end
      | [] => None
      end
  | _ => None
  end.

Definition well_formed (line : string) : bool :=
  match record line with Some _ => true | None => false end.

(** [phrase_table[src][trg]], when both keys are present. *)
Definition lookup2 (phrase_table : gmap string (gmap string float))
    (src trg : string) : option float :=
  d ← phrase_table !! src; d !! trg.

(** The probability of the last record that has [src] and [trg]. *)
Fixpoint last_prob (lines : list string) (src trg : string) : option float :=
  match lines with
  | [] => None
  | line :: rest =>
      match last_prob rest src trg with
      | Some x => Some x
      | None =>
          match record line with
          | Some (s, t, x) =>
              if decide (s = src /\ t = trg) then Some x else None
          | None => None
          end
      end
  end.

(** The body of the loop of [read_lang_model] (util.py, lines 113-121). The
    [try] succeeds when [line[:3]] has three items; otherwise the [except]
    branch appends the integer [0], which [float] turns into [0.0]. *)
Definition lang_model_line (lang_model : gmap (list string) (float * float))
    (line : string) : result (gmap (list string) (float * float)) :=
  let line := strip line in
  let line := split_on TAB line in
  if (1 <? length line)%nat then
    match take 3 line with
    | [prob; ngram; backoff] =>
        p ← py_float prob;
        b ← py_float backoff;
        Ok (<[split ngram := (p, b)]> lang_model)
    | _ =>
        match take 2 line with
        | [prob; ngram] =>
            p ← py_float prob;
            Ok (<[split ngram := (p, 0%float)]> lang_model)
        | _ => Raise (ValueError Unpack)
        end
    end
  else Ok lang_model.

(** [read_lang_model], on the decompressed content of the file. After the
    loop the string ['<unk>'] is looked for among the keys, which are
    tuples. *)
Definition read_lang_model (content : string)
    : result (gmap (list string) (float * float)) :=
  lang_model ← for_each lang_model_line ∅ (readlines content);
  if negb (py_in (PyStr "<unk>") (dict_keys lang_model))
  then Ok (<[["<unk>"] := ((-100)%float, 0%float)]> lang_model)
  else Ok lang_model.

(** The tab-separated columns of a row. *)
Definition columns (line : string) : list string :=
  split_on TAB (strip line).

(** The n-gram a row gives a value to, when it has more than one column. *)
Definition row_key (line : string) : option (list string) :=
  match columns line with
  | _ :: ngram :: _ => Some (split ngram)
  | _ => None
  end.

(** The numbers of a row are such that [float] reads them: the first column
    and, when there is a third, that one too. A row of one column holds
    none. *)
Definition numeric (line : string) : bool :=
  match columns line with
  | prob :: _ :: backoff :: _ =>
      bool_decide (is_Some (float_of_string prob))
      && bool_decide (is_Some (float_of_string backoff))
  | [prob; _] => bool_decide (is_Some (float_of_string prob))
  | _ => true
  end.

(** No row of [lines] gives a value to the n-gram [key]. *)
Definition not_given_by (key : list string) (lines : list string) : bool :=
  forallb (fun l => negb (bool_decide (row_key l = Some key))) lines.

End Readers.

(** [get_moses_sample_model], with [data.path[0]] of the installation as an
    argument, and its alias [get_momo]. *)
Definition get_moses_sample_model (nltk_data_path approach filename : string)
    : string :=
  nltk_data_path +:+ "/" +:+ "models/moses_sample" +:+ "/" +:+ approach
    +:+ "/" +:+ filename.

Definition get_momo (nltk_data_path approaches model_name : string) : string :=
  get_moses_sample_model nltk_data_path approaches model_name.

(** A row that the loop of [read_lang_model] stores: the test
    [len(line) > 1] of line 116. *)
Definition data_row (line : string) : bool :=
  (1 <? length (columns line))%nat.

(** A line of whitespace only. *)
Fixpoint blank (line : string) : bool :=
  match line with
  | "" => true
  | String c rest => is_space c && blank rest
  end.

(** The pair of phrases a line of a phrase table states a probability
    for. *)
Definition phrase_key (float_of_string : string -> option float)
    (line : string) : option (string * string) :=
  match record float_of_string line with
  | Some (src, trg, _) => Some (src, trg)
  | None => None
  end.

(** A token: a non-empty string without whitespace. *)
Fixpoint no_space (s : string) : bool :=
  match s with
  | "" => true
  | String c rest => negb (is_space c) && no_space rest
  end.

Definition token (w : string) : bool := negb (is_empty w) && no_space w.

End Util.

(** ** A reading of plain decimal literals

    [float] is an argument of the readers. To run them on sample files it is
    instantiated with [decimal_float], which reads an optional sign, digits
    and an optional fraction, of at most 15 fractional digits and a mantissa
    below 2^53: there the quotient of the mantissa by the power of ten is
    the correctly rounded value, as Python's [float] returns it. It reads
    nothing else. *)

Module Decimal.

Definition digit (c : ascii) : option N :=
  let n := N_of_ascii c in
  if ((48 <=? n) && (n <=? 57))%N then Some (n - 48)%N else None.

Fixpoint read_digits (s : string) (acc : N) (count : nat) : N * nat * string :=
  match s with
  | String c s' =>
      match digit c with
      | Some d => read_digits s' (10 * acc + d)%N (S count)
      | None => (acc, count, s)
      end
  | "" => (acc, count, "")
  end.

Definition float_of_Z (z : Z) : float := PrimFloat.of_uint63 (Uint63.of_Z z).

Definition decimal_float (s : string) : option float :=
  let '(negative, body) :=
    match s with
    | String "-" r => (true, r)
    | String "+" r => (false, r)
    | _ => (false, s)
    end in
  let '(int_part, n_int, rest) := read_digits body 0 0 in
  let '(mantissa, n_frac, rest) :=
    match rest with
    | String "." r => read_digits r int_part 0
    | _ => (int_part, 0%nat, rest)
    end in
  if PyStr.is_empty rest && (0 <? n_int + n_frac)%nat
     && (mantissa <? 2 ^ 53)%N && (n_frac <=? 15)%nat
  then
    let x := PrimFloat.div (float_of_Z (Z.of_N mantissa))
                           (float_of_Z (10 ^ Z.of_nat n_frac)) in
    Some (if negative then PrimFloat.opp x else x)
  else None.

End Decimal.

(** ** Modified n-gram precision (nltk.translate.bleu_score) *)

Module Bleu.

(** A count table: n-gram to number of occurrences, present keys only. *)
Abbreviation table := (gmap (list string) nat).

(** Modelled from the spec: [ngrams], the sliding window of width [n] over a
    sentence that [_modified_precision] of nltk/translate/bleu_score.py
    (not among the sources) counts; empty when the sentence has fewer than
    [n] tokens. *)
Fixpoint ngrams (n : nat) (sentence : list string) : list (list string) :=
  match sentence with
  | [] => []
  | _ :: rest =>
      if (n <=? length sentence)%nat then take n sentence :: ngrams n rest
      else []
  end.

(** The number of occurrences of [g] in a list of n-grams. *)
Definition occurrences (g : list string) (grams : list (list string)) : nat :=
  length (filter (fun x => x = g) grams).

(** Modelled from the spec: the count table of a list of n-grams, missing
    with bleu_score.py. *)
Definition count_of (g : list string) (counts : table) : nat :=
  default 0%nat (counts !! g).

Definition count_table (grams : list (list string)) : table :=
  foldr (fun g counts => <[g := S (count_of g counts)]> counts) ∅ grams.

(** Modelled from the spec: step 2b, the maximum over the references of the
    count of [g] in that reference's own table (bleu_score.py is missing). *)
Definition max_ref_count (references : list (list string)) (n : nat)
    (g : list string) : nat :=
  foldr (fun reference acc =>
           Nat.max (count_of g (count_table (ngrams n reference))) acc)
        0%nat references.

(** Modelled from the spec: step 2c, the clipped count of [g] (bleu_score.py
    is missing). *)
Definition clipped_count (references : list (list string)) (n : nat)
    (g : list string) (c_cand : nat) : nat :=
  Nat.min c_cand (max_ref_count references n g).

(** Modelled from the spec: steps 3 and 4, the sums over the distinct
    n-grams of the candidate (bleu_score.py is missing). *)
Definition numerator (references : list (list string)) (n : nat)
    (counts : table) : nat :=
  map_fold (fun g c acc => (clipped_count references n g c + acc)%nat) 0%nat
           counts.

Definition denominator (counts : table) : nat :=
  map_fold (fun _ c acc => (c + acc)%nat) 0%nat counts.

(** Modelled from the spec: step 5, the quotient with its guard for a zero
    denominator (bleu_score.py is missing). *)
Definition ratio (num den : nat) : Q :=
  if (den =? 0)%nat then 0%Q else Qred (Z.of_nat num # Pos.of_nat den).

Inductive outcome : Type :=
| Value (q : Q)
| InvalidArgument.

(** Modelled from the spec: [modified_precision(references, candidate, n)]
    of section 4.1, with the failure section 7 asks for when [n <= 0];
    the function tested by test_bleu.py, whose module bleu_score.py is not
    among the sources. *)
Definition modified_precision (references : list (list string))
    (candidate : list string) (n : Z) : outcome :=
  if (n <=? 0)%Z then InvalidArgument
  else
    let counts := count_table (ngrams (Z.to_nat n) candidate) in
    Value (ratio (numerator references (Z.to_nat n) counts)
                 (denominator counts)).

(** The value as the floating-point number Python's division of the two
    integers returns. *)
Definition to_float (q : Q) : float :=
  PrimFloat.div (Decimal.float_of_Z (Qnum q))
                (Decimal.float_of_Z (Z.pos (Qden q))).

Definition modified_precision_float (references : list (list string))
    (candidate : list string) (n : Z) : option float :=
  match modified_precision references candidate n with
  | Value q => Some (to_float q)
  | InvalidArgument => None
  end.

End Bleu.

(** ** Sample files *)

Module Samples.
Import PyStr.

(** Records in the layout of the Moses sample phrase table. *)
Definition phrase_lines : list string :=
  ["der ||| the ||| 0.3 ||| |||" +:+ LF;
   "klein ||| small ||| 0.8 ||| |||" +:+ LF;
   "klein ||| little ||| 0.8 ||| |||" +:+ LF;
   "es gibt ||| there is ||| 1.0 0.5 1.0 0.5 ||| 0-0 1-1" +:+ LF].

Definition phrase_file : string := foldr String.append "" phrase_lines.

(** A phrase table with a record of two fields. *)
Definition phrase_file_short : string :=
  "der ||| the ||| 0.3 ||| |||" +:+ LF +:+ "klein ||| small" +:+ LF.

(** A phrase table whose records have three fields, one with a third field
    that is no number. *)
Definition phrase_file_not_a_number : string :=
  "der ||| the ||| 0.3" +:+ LF +:+ "haus ||| house ||| x" +:+ LF.

(** A phrase table that states the same pair of phrases twice. *)
Definition phrase_file_twice : string :=
  "ist ||| is ||| 0.5" +:+ LF +:+ "ist ||| is ||| 0.25" +:+ LF.

(** The rows of the docstring of [read_lang_model], with an ARPA header. *)
Definition arpa_lines : list string :=
  ["\data\" +:+ LF;
   "ngram 1=2" +:+ LF;
   "ngram 2=1" +:+ LF;
   LF;
   "\1-grams:" +:+ LF;
   "-2.785123" +:+ TAB +:+ "</s>" +:+ LF;
   "-99" +:+ TAB +:+ "<s>" +:+ TAB +:+ "-1.750062" +:+ LF;
   LF;
   "\2-grams:" +:+ LF;
   "-1.226477" +:+ TAB +:+ "it is" +:+ TAB +:+ "-1.013582" +:+ LF;
   LF;
   "\end\" +:+ LF].

Definition arpa_file : string := foldr String.append "" arpa_lines.

(** An ARPA file that defines the unknown-token unigram itself. *)
Definition arpa_file_unk : string :=
  "\1-grams:" +:+ LF
  +:+ "-2.5" +:+ TAB +:+ "<unk>" +:+ TAB +:+ "-0.5" +:+ LF
  +:+ "-99" +:+ TAB +:+ "<s>" +:+ TAB +:+ "-1.750062" +:+ LF.

(** An ARPA file that gives the same n-gram in two rows. *)
Definition arpa_file_twice : string :=
  "-1.0" +:+ TAB +:+ "a" +:+ LF
  +:+ "-2.0" +:+ TAB +:+ "a" +:+ TAB +:+ "-0.5" +:+ LF.

(** An ARPA file with a row whose first column is no number. *)
Definition arpa_file_not_a_number : string :=
  "-1.0" +:+ TAB +:+ "a" +:+ LF
  +:+ "n/a" +:+ TAB +:+ "b" +:+ LF.

(** A phrase table with an empty line between two records. *)
Definition phrase_file_blank_line : string :=
  "der ||| the ||| 0.3" +:+ LF +:+ LF +:+ "haus ||| house ||| 1.0" +:+ LF.

(** A phrase table with a record whose third field is blank. *)
Definition phrase_file_blank_third : string :=
  "der ||| the ||| 0.3" +:+ LF +:+ "haus ||| house |||   ||| 0-0" +:+ LF.

(** The records of [phrase_file] in the reverse order. *)
Definition phrase_file_reversed : string :=
  foldr String.append "" (rev phrase_lines).

(** The records of [phrase_file] cut down to what the reader looks at: the
    two phrases and the first probability. *)
Definition phrase_file_first_prob : string :=
  "der ||| the ||| 0.3" +:+ LF
  +:+ "klein ||| small ||| 0.8" +:+ LF
  +:+ "klein ||| little ||| 0.8" +:+ LF
  +:+ "es gibt ||| there is ||| 1.0" +:+ LF.

(** [phrase_file_twice] with indented records and CR LF line ends. *)
Definition phrase_file_crlf : string :=
  "  ist ||| is ||| 0.5" +:+ String (ascii_of_nat 13) LF
  +:+ TAB +:+ "ist ||| is ||| 0.25" +:+ String (ascii_of_nat 13) LF.

(** The rows of [arpa_file] that have more than one column. *)
Definition arpa_file_rows : string :=
  "-2.785123" +:+ TAB +:+ "</s>" +:+ LF
  +:+ "-99" +:+ TAB +:+ "<s>" +:+ TAB +:+ "-1.750062" +:+ LF
  +:+ "-1.226477" +:+ TAB +:+ "it is" +:+ TAB +:+ "-1.013582" +:+ LF.

(** The same rows in another order, with the header of the unigrams. *)
Definition arpa_file_reordered : string :=
  "-1.226477" +:+ TAB +:+ "it is" +:+ TAB +:+ "-1.013582" +:+ LF
  +:+ "\1-grams:" +:+ LF
  +:+ "-99" +:+ TAB +:+ "<s>" +:+ TAB +:+ "-1.750062" +:+ LF
  +:+ "-2.785123" +:+ TAB +:+ "</s>" +:+ LF.

(** The sentences of test_bleu.py, tokenized as there by [str.split]. *)
Definition the_ref1 : list string := split "the cat is on the mat".
Definition the_ref2 : list string := split "there is a cat on the mat".
Definition the_hyp : list string := split "the the the the the the the".

Definition guide_ref1 : list string :=
  split ("It is a guide to action that ensures that the military "
         +:+ "will forever heed Party commands.").
Definition guide_ref2 : list string :=
  split ("It is the guiding principle which guarantees the military "
         +:+ "forces always being under the command of the Party.").
Definition guide_ref3 : list string :=
  split ("It is the practical guide for the army always to heed "
         +:+ "the directions of the party").

Definition guide_hyp1 : list string :=
  split ("It is a guide to action which ensures that the military "
         +:+ "always obeys the commands of the party").
Definition guide_hyp2 : list string :=
  split ("It is to insure the troops forever hearing the activity "
         +:+ "guidebook that party direct").

End Samples.

(** * Properties *)

(** ** The string primitives on sample inputs *)

Example strip_sample :
  PyStr.strip ("  a b " +:+ PyStr.TAB +:+ PyStr.LF) = "a b".
Proof. reflexivity. Qed.

Example split_sample : PyStr.split "  the cat   is " = ["the"; "cat"; "is"].
Proof. reflexivity. Qed.

Example split_on_sample :
  PyStr.split_on " ||| " "a ||| b |||   ||| 0-0" = ["a"; "b"; " "; "0-0"].
Proof. reflexivity. Qed.

Example split_on_empty : PyStr.split_on " ||| " "" = [""].
Proof. reflexivity. Qed.

Example split_on_overlap : PyStr.split_on "aa" "aaa" = [""; "a"].
Proof. reflexivity. Qed.

Example readlines_sample :
  PyStr.readlines ("a" +:+ PyStr.LF +:+ PyStr.LF +:+ "b") =
  ["a" +:+ PyStr.LF; PyStr.LF; "b"].
Proof. reflexivity. Qed.

Example decimal_float_sample :
  Decimal.decimal_float "-1.750062" = Some (-1.750062)%float
  /\ Decimal.decimal_float "0.8" = Some 0.8%float
  /\ Decimal.decimal_float "-99" = Some (-99)%float
  /\ Decimal.decimal_float "x" = None.
Proof. vm_compute. repeat split; reflexivity. Qed.

(** ** The readers *)

Module UtilFacts.
Import PyStr Util.

Section Loop.
Context {S : Type} (body : S -> string -> result S).

Lemma for_each_app (st : S) (l1 l2 : list string) :
  for_each body st (l1 ++ l2) =
  (st' ← for_each body st l1; for_each body st' l2).
Proof.
  revert st. induction l1 as [|l l1 IH]; intros st; simpl; [done|].
  destruct (body st l) as [st'|e]; simpl; [apply IH | done].
Qed.

(** An exception raised by one line is the outcome of the whole loop when
    the lines before it went through. *)
Lemma for_each_raise (st st' : S) (pre post : list string) (line : string)
    (e : exn) :
  for_each body st pre = Ok st' -> body st' line = Raise e ->
  for_each body st (pre ++ line :: post) = Raise e.
Proof.
  intros Hpre Hline. rewrite for_each_app, Hpre. simpl. by rewrite Hline.
Qed.

(** A loop with a line on which the body raises whatever the state ends in
    an exception. *)
Lemma for_each_raises (st : S) (lines : list string) (line : string) :
  line ∈ lines -> (forall st', exists e, body st' line = Raise e) ->
  exists e, for_each body st lines = Raise e.
Proof.
  intros Hin Hbad. revert st.
  induction lines as [|l lines IH]; intros st; [by apply elem_of_nil in Hin|].
  simpl. destruct (body st l) as [st'|e] eqn:Hl; simpl; [|by eexists].
  apply elem_of_cons in Hin as [->|Hin]; [|by apply IH].
  destruct (Hbad st) as [e He]. congruence.
Qed.

End Loop.
(** *** The phrase-table reader *)

Section PhraseTable.
Variable float_of_string : string -> option float.

Local Abbreviation record := (Util.record float_of_string).
Local Abbreviation well_formed := (Util.well_formed float_of_string).
Local Abbreviation last_prob := (Util.last_prob float_of_string).
Local Abbreviation phrase_table_line :=
  (Util.phrase_table_line float_of_string).
Local Abbreviation read_phrase_table :=
  (Util.read_phrase_table float_of_string).

Lemma phrase_table_line_short (table : gmap string (gmap string float))
    (line : string) :
  (length (fields line) < 3)%nat ->
  phrase_table_line table line = Raise (ValueError Unpack).
Proof.
  unfold Util.phrase_table_line, fields. intros Hlen.
  destruct (split_on " ||| " (strip line)) as [|a [|b [|c l]]]; simpl in *;
    try done; lia.
Qed.

Lemma phrase_table_line_record (table : gmap string (gmap string float))
    (line src trg : string) (x : float) :
  record line = Some (src, trg, x) ->
  phrase_table_line table line =
  Ok (<[src := <[trg := x]> (default ∅ (table !! src))]> table).
Proof.
  unfold Util.record, Util.phrase_table_line, fields, py_float.
  destruct (split_on " ||| " (strip line)) as [|a [|b [|c l]]]; simpl;
    try done.
  destruct (split c) as [|p ps]; [done|].
  destruct (float_of_string p); [|done].
  by intros [= -> -> ->].
Qed.

Lemma lookup2_insert (table : gmap string (gmap string float))
    (src trg s t : string) (x : float) :
  lookup2 (<[src := <[trg := x]> (default ∅ (table !! src))]> table) s t =
  if decide (src = s /\ trg = t) then Some x else lookup2 table s t.
Proof.
  unfold lookup2. destruct (decide (src = s)) as [->|Hs].
  - rewrite lookup_insert_eq. simpl.
    destruct (decide (trg = t)) as [->|Ht].
    + rewrite lookup_insert_eq. by rewrite decide_True.
    + rewrite lookup_insert_ne by done. rewrite decide_False by (intros [? ?]; congruence).
      destruct (table !! s); simpl; [done|]. by rewrite lookup_empty.
  - rewrite lookup_insert_ne by done. by rewrite decide_False by (intros [? ?]; congruence).
Qed.

Lemma last_prob_app (l1 l2 : list string) (src trg : string) :
  last_prob (l1 ++ l2) src trg =
  match last_prob l2 src trg with
  | Some x => Some x
  | None => last_prob l1 src trg
  end.
Proof.
  induction l1 as [|l l1 IH]; simpl; [by destruct (last_prob l2 src trg)|].
  rewrite IH. by destruct (last_prob l2 src trg).
Qed.

(** The loop on well-formed lines: it ends, and the table holds for each
    pair of phrases the probability of the last record that has them. *)
Lemma read_lines_ok (lines : list string) :
  forallb well_formed lines = true ->
  exists table,
    for_each phrase_table_line ∅ lines = Ok table
    /\ forall src trg, lookup2 table src trg = last_prob lines src trg.
Proof.
  induction lines as [|line lines IH] using rev_ind; intros Hwf.
  - exists ∅. split; [done|]. intros src trg. unfold lookup2.
    by rewrite lookup_empty.
  - rewrite forallb_app in Hwf. apply andb_true_iff in Hwf as [Hwf Hline].
    destruct (IH Hwf) as (table & Hrun & Hlook).
    simpl in Hline. rewrite andb_true_r in Hline.
    unfold Util.well_formed in Hline.
    destruct (record line) as [[[s t] x]|] eqn:Hrec; [|done].
    eexists. split.
    + rewrite for_each_app, Hrun. simpl.
      rewrite (phrase_table_line_record _ _ _ _ _ Hrec). done.
    + intros src trg. rewrite lookup2_insert, last_prob_app. simpl.
      rewrite Hrec. destruct (decide (s = src /\ t = trg)); [done|].
      apply Hlook.
Qed.

(** [last_prob] finds a record with no later record for the same phrases. *)
Lemma last_prob_Some (lines : list string) (src trg : string) (x : float) :
  last_prob lines src trg = Some x <->
  exists pre line post,
    lines = pre ++ line :: post
    /\ record line = Some (src, trg, x)
    /\ forall l y, l ∈ post -> record l <> Some (src, trg, y).
Proof.
  revert x. induction lines as [|line lines IH]; intros x; simpl.
  - split; [done|]. intros (pre & l & post & H & _). by destruct pre.
  - destruct (last_prob lines src trg) as [y|] eqn:Hlast.
    + split.
      * intros [= ->].
        destruct (proj1 (IH x) eq_refl) as (pre & l & post & -> & ?).
        by exists (line :: pre), l, post.
      * intros (pre & l & post & Heq & Hrec & Hpost).
        destruct pre as [|l0 pre]; simpl in Heq.
        -- injection Heq as <- <-.
           destruct (proj1 (IH y) eq_refl) as (pre & l' & post' & Hl & Hl' & _).
           exfalso. apply (Hpost l' y); [|done].
           rewrite Hl. apply elem_of_app. right. by left.
        -- injection Heq as <- ->. apply (IH x). by exists pre, l, post.
    + assert (forall l y, l ∈ lines -> record l <> Some (src, trg, y)) as Hnone.
      { intros l y Hin Hrec.
        apply list_elem_of_split in Hin as (l1 & l2 & ->).
        rewrite last_prob_app in Hlast. simpl in Hlast. rewrite Hrec in Hlast.
        rewrite decide_True in Hlast by done.
        by destruct (last_prob l2 src trg). }
      split.
      * destruct (record line) as [[[s t] z]|] eqn:Hrec; [|done].
        case_decide as Hst; [|done]. destruct Hst as [-> ->]. intros [= ->].
        by exists [], line, lines.
      * intros (pre & l & post & Heq & Hrec & Hpost).
        destruct pre as [|l0 pre]; simpl in Heq.
        -- injection Heq as <- <-. rewrite Hrec. by rewrite decide_True.
        -- injection Heq as <- ->. exfalso. apply (Hnone l x); [|done].
           apply elem_of_app. right. by left.
Qed.

(** C10: when a line of the file splits into fewer than three
    ' ||| '-delimited fields, [read_phrase_table] ends in an exception and
    returns no table, so the line is neither skipped nor entered in part;
    when the lines before it went through, the exception is the
    [ValueError] of the unpacking of the first three fields. *)
Theorem read_phrase_table_short_line (content line : string) :
  line ∈ readlines content ->
  (length (fields line) < 3)%nat ->
  (exists e, read_phrase_table content = Raise e)
  /\ (forall pre post table,
        readlines content = pre ++ line :: post ->
        for_each phrase_table_line ∅ pre = Ok table ->
        read_phrase_table content = Raise (ValueError Unpack)).
Proof.
  intros Hin Hshort. split.
  - apply for_each_raises with line; [done|].
    intros st. exists (ValueError Unpack). by apply phrase_table_line_short.
  - intros pre post table Hsplit Hpre. unfold Util.read_phrase_table.
    rewrite Hsplit. apply for_each_raise with table; [done|].
    by apply phrase_table_line_short.
Qed.

(** C9, amended: when every record of the file has at least three fields
    and a third field whose first whitespace-separated item [float] reads,
    [read_phrase_table] returns a table, and the table maps a source phrase
    to a mapping that takes a target phrase to [x] exactly when [x] is that
    item, read as a number, of the last record with this source and this
    target. *)
Theorem read_phrase_table_last_record (content : string) :
  forallb well_formed (readlines content) = true ->
  exists table,
    read_phrase_table content = Ok table
    /\ forall src trg x,
         (exists d, table !! src = Some d /\ d !! trg = Some x)
         <-> exists pre line post,
               readlines content = pre ++ line :: post
               /\ record line = Some (src, trg, x)
               /\ forall l y, l ∈ post -> record l <> Some (src, trg, y).
Proof.
  intros Hwf. destruct (read_lines_ok _ Hwf) as (table & Hrun & Hlook).
  exists table. split; [done|]. intros src trg x.
  rewrite <- last_prob_Some, <- Hlook. unfold lookup2.
  destruct (table !! src) as [d|]; simpl.
  - split; [by intros (d' & [= <-] & ?) | by exists d].
  - split; [by intros (d' & ? & ?) | done].
Qed.

End PhraseTable.

Lemma read_phrase_table_short_line_witness :
  Util.read_phrase_table Decimal.decimal_float Samples.phrase_file_short
  = Raise (ValueError Unpack).
Proof.
  assert (readlines Samples.phrase_file_short =
          ["der ||| the ||| 0.3 ||| |||" +:+ LF] ++
          ("klein ||| small" +:+ LF) :: []) as Hlines by reflexivity.
  eapply (proj2 (read_phrase_table_short_line Decimal.decimal_float
                   Samples.phrase_file_short ("klein ||| small" +:+ LF) _ _)).
  - exact Hlines.
  - vm_compute. reflexivity.
  Unshelve.
  + rewrite Hlines. apply elem_of_app. right. apply list_elem_of_here.
  + vm_compute. lia.
Defined.

Lemma read_phrase_table_last_record_witness :
  exists table,
    Util.read_phrase_table Decimal.decimal_float Samples.phrase_file = Ok table
    /\ (exists d, table !! "klein" = Some d /\ d !! "little" = Some 0.8%float)
    /\ (exists d, table !! "es gibt" = Some d
                  /\ d !! "there is" = Some 1%float).
Proof.
  assert (forallb (Util.well_formed Decimal.decimal_float)
            (readlines Samples.phrase_file) = true) as Hwf
    by (vm_compute; reflexivity).
  destruct (read_phrase_table_last_record Decimal.decimal_float
              Samples.phrase_file Hwf) as (table & Hrun & Hchar).
  exists table. split; [exact Hrun|]. split.
  - apply Hchar.
    exists (take 2 Samples.phrase_lines),
           ("klein ||| little ||| 0.8 ||| |||" +:+ LF),
           (drop 3 Samples.phrase_lines).
    split; [reflexivity|]. split; [vm_compute; reflexivity|].
    intros l y Hin. apply list_elem_of_singleton in Hin as ->.
    vm_compute. discriminate.
  - apply Hchar.
    exists (take 3 Samples.phrase_lines),
           ("es gibt ||| there is ||| 1.0 0.5 1.0 0.5 ||| 0-0 1-1" +:+ LF),
           [].
    split; [reflexivity|]. split; [vm_compute; reflexivity|].
    intros l y Hin. by apply elem_of_nil in Hin.
Defined.

Lemma read_phrase_table_three_fields_counterexample :
  (forallb (fun l => (3 <=? length (fields l))%nat)
           (readlines Samples.phrase_file_not_a_number) = true
   /\ Util.read_phrase_table Decimal.decimal_float
        Samples.phrase_file_not_a_number = Raise (ValueError NotAFloat))
  /\ (forallb (fun l => (3 <=? length (fields l))%nat)
              (readlines Samples.phrase_file_twice) = true
      /\ Util.record Decimal.decimal_float ("ist ||| is ||| 0.5" +:+ LF)
         = Some ("ist", "is", 0.5%float)
      /\ (fun table => lookup2 table "ist" "is")
           <$> Util.read_phrase_table Decimal.decimal_float
                 Samples.phrase_file_twice
         = Ok (Some 0.25%float)).
Proof. vm_compute. repeat split; reflexivity. Qed.

(** *** The language-model reader *)

(** A string is never among the keys of a dictionary keyed by tuples. *)
Lemma str_not_in_keys {V : Type} (s : string) (d : gmap (list string) V) :
  py_in (PyStr s) (dict_keys d) = false.
Proof.
  unfold py_in, dict_keys. induction ((map_to_list d).*1) as [|k ks IH]; done.
Qed.

Section LangModel.
Variable float_of_string : string -> option float.

Local Abbreviation numeric := (Util.numeric float_of_string).
Local Abbreviation lang_model_line := (Util.lang_model_line float_of_string).
Local Abbreviation read_lang_model := (Util.read_lang_model float_of_string).

Lemma lang_model_line_two (m : gmap (list string) (float * float))
    (line prob ngram : string) (p : float) :
  columns line = [prob; ngram] -> float_of_string prob = Some p ->
  lang_model_line m line = Ok (<[split ngram := (p, 0%float)]> m).
Proof.
  unfold Util.lang_model_line, columns, py_float. intros -> Hp. simpl.
  by rewrite Hp.
Qed.

Lemma lang_model_line_three (m : gmap (list string) (float * float))
    (line prob ngram backoff : string) (more : list string) (p b : float) :
  columns line = prob :: ngram :: backoff :: more ->
  float_of_string prob = Some p -> float_of_string backoff = Some b ->
  lang_model_line m line = Ok (<[split ngram := (p, b)]> m).
Proof.
  unfold Util.lang_model_line, columns, py_float. intros -> Hp Hb. simpl.
  by rewrite Hp, Hb.
Qed.

(** A row whose numbers [float] reads goes through, and changes the value
    of no n-gram but its own. *)
Lemma lang_model_line_ok (m : gmap (list string) (float * float))
    (line : string) :
  numeric line = true ->
  exists m', lang_model_line m line = Ok m'
             /\ forall k, row_key line <> Some k -> m' !! k = m !! k.
Proof.
  unfold Util.numeric, row_key. intros Hnum.
  destruct (columns line) as [|prob [|ngram [|backoff more]]] eqn:Hcols.
  - exists m. split; [|done].
    unfold Util.lang_model_line. fold (columns line). by rewrite Hcols.
  - exists m. split; [|done].
    unfold Util.lang_model_line. fold (columns line). by rewrite Hcols.
  - apply bool_decide_eq_true in Hnum as [p Hp].
    eexists. split; [by eapply lang_model_line_two|].
    intros k Hk. apply lookup_insert_ne. congruence.
  - apply andb_true_iff in Hnum as [Hp Hb].
    apply bool_decide_eq_true in Hp as [p Hp].
    apply bool_decide_eq_true in Hb as [b Hb].
    eexists. split; [by eapply lang_model_line_three|].
    intros k Hk. apply lookup_insert_ne. congruence.
Qed.

(** The loop over rows whose numbers [float] reads ends, and keeps the
    value of an n-gram that none of the rows gives. *)
Lemma lang_model_loop_ok (lines : list string)
    (m : gmap (list string) (float * float)) :
  forallb numeric lines = true ->
  exists m', for_each lang_model_line m lines = Ok m'
             /\ forall k, not_given_by k lines = true -> m' !! k = m !! k.
Proof.
  revert m. induction lines as [|line lines IH]; intros m Hnum.
  - by exists m.
  - simpl in Hnum. apply andb_true_iff in Hnum as [Hline Hnum].
    destruct (lang_model_line_ok m line Hline) as (m1 & Hrun1 & Hkeep1).
    destruct (IH m1 Hnum) as (m2 & Hrun2 & Hkeep2).
    exists m2. split; [simpl; by rewrite Hrun1|].
    intros k Hk. simpl in Hk. apply andb_true_iff in Hk as [Hk1 Hk2].
    rewrite (Hkeep2 k Hk2). apply Hkeep1.
    apply negb_true_iff, bool_decide_eq_false in Hk1. done.
Qed.

(** After the loop the entry of the unknown-token unigram is written
    whatever the loop stored. *)
Lemma read_lang_model_loop (content : string) :
  read_lang_model content =
  (m ← for_each lang_model_line ∅ (readlines content);
   Ok (<[["<unk>"] := ((-100)%float, 0%float)]> m)).
Proof.
  unfold Util.read_lang_model.
  destruct (for_each _ _ _) as [m|e]; simpl; [|done].
  by rewrite str_not_in_keys.
Qed.

(** X1: whatever the file holds, a mapping that [read_lang_model] returns
    gives the unknown-token unigram the pair (-100.0, 0.0). *)
Lemma read_lang_model_unk (content : string)
    (m : gmap (list string) (float * float)) :
  read_lang_model content = Ok m ->
  m !! ["<unk>"] = Some ((-100)%float, 0%float).
Proof.
  rewrite read_lang_model_loop.
  destruct (for_each _ _ _) as [m0|e]; simpl; [|done].
  intros [= <-]. apply lookup_insert_eq.
Qed.

(** What the file's row gives when it is the last row for its n-gram. *)
Lemma read_lang_model_row (content line : string) (pre post : list string)
    (key : list string) (v : float * float) :
  readlines content = pre ++ line :: post ->
  forallb numeric (readlines content) = true ->
  not_given_by key post = true ->
  key <> ["<unk>"] ->
  (forall m, lang_model_line m line = Ok (<[key := v]> m)) ->
  exists m, read_lang_model content = Ok m /\ m !! key = Some v.
Proof.
  intros Hsplit Hnum Hlast Hunk Hline.
  rewrite Hsplit, forallb_app in Hnum. simpl in Hnum.
  apply andb_true_iff in Hnum as [Hpre Hpost].
  apply andb_true_iff in Hpost as [_ Hpost].
  destruct (lang_model_loop_ok pre ∅ Hpre) as (m1 & Hrun1 & _).
  destruct (lang_model_loop_ok post (<[key := v]> m1) Hpost)
    as (m2 & Hrun2 & Hkeep).
  exists (<[["<unk>"] := ((-100)%float, 0%float)]> m2). split.
  - rewrite read_lang_model_loop, Hsplit, for_each_app, Hrun1. simpl.
    rewrite Hline. simpl. by rewrite Hrun2.
  - rewrite lookup_insert_ne by done. rewrite (Hkeep key Hlast).
    apply lookup_insert_eq.
Qed.

(** C8, amended: in a file whose rows all have numbers [float] reads, take
    a row whose n-gram is not the unknown-token unigram and is given by no
    later row. When the row has exactly two tab-separated columns,
    [read_lang_model] maps the tuple of its n-gram's tokens to the pair of
    its log-probability and 0; when it has three columns or more, to the
    pair of its log-probability and its backoff, the third column. *)
Theorem read_lang_model_row_value (content line : string)
    (pre post : list string) (prob ngram : string) (p : float) :
  readlines content = pre ++ line :: post ->
  forallb numeric (readlines content) = true ->
  not_given_by (split ngram) post = true ->
  split ngram <> ["<unk>"] ->
  float_of_string prob = Some p ->
  (columns line = [prob; ngram] ->
   exists m, read_lang_model content = Ok m
             /\ m !! split ngram = Some (p, 0%float))
  /\ (forall backoff more b,
        columns line = prob :: ngram :: backoff :: more ->
        float_of_string backoff = Some b ->
        exists m, read_lang_model content = Ok m
                  /\ m !! split ngram = Some (p, b)).
Proof.
  intros Hsplit Hnum Hlast Hunk Hp. split.
  - intros Hcols. eapply read_lang_model_row; try done.
    intros m. by eapply lang_model_line_two.
  - intros backoff more b Hcols Hb. eapply read_lang_model_row; try done.
    intros m. by eapply lang_model_line_three.
Qed.

End LangModel.

Lemma read_lang_model_row_value_witness :
  (exists m,
     Util.read_lang_model Decimal.decimal_float Samples.arpa_file = Ok m
     /\ m !! ["</s>"] = Some ((-2.785123)%float, 0%float))
  /\ (exists m,
        Util.read_lang_model Decimal.decimal_float Samples.arpa_file = Ok m
        /\ m !! ["it"; "is"] = Some ((-1.226477)%float, (-1.013582)%float)).
Proof.
  split.
  - refine (proj1 (read_lang_model_row_value Decimal.decimal_float
                     Samples.arpa_file
                     ("-2.785123" +:+ TAB +:+ "</s>" +:+ LF)
                     (take 5 Samples.arpa_lines) (drop 6 Samples.arpa_lines)
                     "-2.785123" "</s>" (-2.785123)%float _ _ _ _ _) _);
      vm_compute; try reflexivity; discriminate.
  - refine (proj2 (read_lang_model_row_value Decimal.decimal_float
                     Samples.arpa_file
                     ("-1.226477" +:+ TAB +:+ "it is" +:+ TAB +:+ "-1.013582"
                      +:+ LF)
                     (take 9 Samples.arpa_lines) (drop 10 Samples.arpa_lines)
                     "-1.226477" "it is" (-1.226477)%float _ _ _ _ _)
                  "-1.013582" [] (-1.013582)%float _ _);
      vm_compute; try reflexivity; discriminate.
Defined.

(** The entry the docstring of [read_lang_model] prints. *)
Example read_lang_model_docstring :
  (fun m => m !! ["<s>"])
    <$> Util.read_lang_model Decimal.decimal_float Samples.arpa_file
  = Ok (Some ((-99)%float, (-1.750062)%float)).
Proof. vm_compute. reflexivity. Qed.

(** Two entries differ when comparing their first components with [pivot]
    tells them apart. *)
Ltac entries_differ pivot :=
  let H := fresh in
  intros H;
  apply (f_equal (fun o : option (float * float) =>
                    match o with
                    | Some (x, _) => PrimFloat.ltb x pivot
                    | None => false
                    end)) in H;
  vm_compute in H; discriminate H.

Lemma read_lang_model_row_counterexample :
  columns ("-1.0" +:+ TAB +:+ "a" +:+ LF) = ["-1.0"; "a"]
  /\ Decimal.decimal_float "-1.0" = Some (-1)%float
  /\ (fun m => m !! ["a"])
       <$> Util.read_lang_model Decimal.decimal_float Samples.arpa_file_twice
     = Ok (Some ((-2)%float, (-0.5)%float))
  /\ Some ((-2)%float, (-0.5)%float) <> Some ((-1)%float, 0%float)
  /\ Util.read_lang_model Decimal.decimal_float
       Samples.arpa_file_not_a_number = Raise (ValueError NotAFloat).
Proof.
  split; [reflexivity|]. split; [vm_compute; reflexivity|].
  split; [vm_compute; reflexivity|].
  split; [entries_differ (-1.5)%float|]. vm_compute. reflexivity.
Qed.

(** C7: on a file that defines the unknown-token unigram with the pair
    (-2.5, -0.5), the mapping [read_lang_model] returns holds
    (-100.0, 0.0) for it, which is not the file's pair. *)
Lemma read_lang_model_unk_replaced :
  row_key ("-2.5" +:+ TAB +:+ "<unk>" +:+ TAB +:+ "-0.5" +:+ LF)
  = Some ["<unk>"]
  /\ (fun m => m !! ["<unk>"])
       <$> Util.read_lang_model Decimal.decimal_float Samples.arpa_file_unk
     = Ok (Some ((-100)%float, 0%float))
  /\ Some ((-100)%float, 0%float) <> Some ((-2.5)%float, (-0.5)%float).
Proof.
  split; [reflexivity|]. split; [vm_compute; reflexivity|].
  entries_differ (-50)%float.
Qed.

End UtilFacts.

(** ** The readers: outcomes, keys and the order of rows *)

Module ReaderFacts.
Import PyStr Util UtilFacts.

(** *** Lines of whitespace *)

Lemma lstrip_blank (s : string) : blank s = true -> lstrip s = "".
Proof.
  induction s as [|c s IH]; simpl; [done|].
  intros H. apply andb_true_iff in H as [Hc Hs]. rewrite Hc. by apply IH.
Qed.

Lemma strip_blank (s : string) : blank s = true -> strip s = "".
Proof. intros H. unfold strip. by rewrite lstrip_blank. Qed.

(** A line of whitespace has one field, the empty string. *)
Lemma fields_blank (line : string) : blank line = true -> fields line = [""].
Proof. intros H. unfold fields. by rewrite strip_blank. Qed.

(** *** The items of [str.split] *)

Lemma push_tokens (c : ascii) (l : list string) :
  is_space c = false ->
  Forall (fun w => token w = true) l ->
  Forall (fun w => token w = true) (push c l).
Proof.
  intros Hc Hl. destruct Hl as [|w l Hw Hl]; simpl.
  - constructor; [|done]. unfold token. simpl. by rewrite Hc.
  - constructor; [|done]. unfold token in Hw.
    apply andb_true_iff in Hw as [_ Hw]. unfold token. simpl.
    by rewrite Hc, Hw.
Qed.

Lemma split_tokens (s : string) : Forall (fun w => token w = true) (split s).
Proof.
  induction s as [|c s IH]; [constructor|].
  cbn [split]. destruct (is_space c) eqn:Hc; [done|].
  destruct s as [|c' s'].
  - constructor; [|done]. unfold token. simpl. by rewrite Hc.
  - destruct (is_space c') eqn:Hc'.
    + constructor; [|done]. unfold token. simpl. by rewrite Hc.
    + by apply push_tokens.
Qed.

Lemma row_key_tokens (line : string) (k : list string) :
  row_key line = Some k -> Forall (fun w => token w = true) k.
Proof.
  unfold row_key. destruct (columns line) as [|prob [|ngram more]]; try done.
  intros [= <-]. apply split_tokens.
Qed.

(** *** Loops over lines that agree *)

Lemma for_each_ext {S : Type} (f g : S -> string -> result S)
    (l1 l2 : list string) :
  Forall2 (fun a b => forall st, f st a = g st b) l1 l2 ->
  forall st, for_each f st l1 = for_each g st l2.
Proof.
  induction 1 as [|a b l1 l2 Hab _ IH]; intros st; simpl; [done|].
  rewrite Hab. destruct (g st b); simpl; [apply IH | done].
Qed.

Lemma fmap_eq_Forall2 {A B : Type} (f : A -> B) (l1 l2 : list A) :
  f <$> l1 = f <$> l2 -> Forall2 (fun a b => f a = f b) l1 l2.
Proof.
  revert l2. induction l1 as [|a l1 IH]; intros [|b l2]; simpl; try done.
  intros [= Hab Hl]. constructor; [done | by apply IH].
Qed.

(** *** The language-model reader *)

Section LangModel.
Variable float_of_string : string -> option float.

Local Abbreviation numeric := (Util.numeric float_of_string).
Local Abbreviation lang_model_line := (Util.lang_model_line float_of_string).
Local Abbreviation read_lang_model := (Util.read_lang_model float_of_string).

(** What a row does to the mapping does not depend on the mapping: it
    raises the [ValueError] of [float], leaves the mapping as it is, or
    assigns a pair to its n-gram. *)
Lemma lang_model_line_cases (line : string) :
  (numeric line = false
   /\ forall m, lang_model_line m line = Raise (ValueError NotAFloat))
  \/ (numeric line = true /\ row_key line = None
      /\ forall m, lang_model_line m line = Ok m)
  \/ (numeric line = true
      /\ exists k v, row_key line = Some k
                     /\ forall m, lang_model_line m line = Ok (<[k := v]> m)).
Proof.
  unfold Util.numeric, row_key, Util.lang_model_line. fold (columns line).
  destruct (columns line) as [|prob [|ngram [|backoff more]]]; simpl.
  - right. left. done.
  - right. left. done.
  - unfold py_float. destruct (float_of_string prob) as [p|] eqn:Hp; simpl.
    + right. right. split; [done|]. by exists (split ngram), (p, 0%float).
    + by left.
  - unfold py_float. destruct (float_of_string prob) as [p|] eqn:Hp; simpl.
    + destruct (float_of_string backoff) as [b|] eqn:Hb; simpl.
      * right. right. split; [done|]. by exists (split ngram), (p, b).
      * by left.
    + by left.
Qed.

(** A row of fewer than two columns leaves the mapping as it is. *)
Lemma lang_model_line_skip (m : gmap (list string) (float * float))
    (line : string) :
  data_row line = false -> lang_model_line m line = Ok m.
Proof.
  unfold data_row, Util.lang_model_line. fold (columns line).
  by intros ->.
Qed.

Lemma lang_model_loop_filter (lines : list string)
    (m : gmap (list string) (float * float)) :
  for_each lang_model_line m lines =
  for_each lang_model_line m (List.filter data_row lines).
Proof.
  revert m. induction lines as [|line lines IH]; intros m; simpl; [done|].
  destruct (data_row line) eqn:Hrow; simpl.
  - destruct (lang_model_line m line); simpl; [apply IH | done].
  - rewrite lang_model_line_skip by done. simpl. apply IH.
Qed.

(** A loop that ends went over rows whose numbers [float] reads, and the
    keys it leaves are those it found and the n-grams of the rows. *)
Lemma lang_model_loop_inv (lines : list string)
    (m m' : gmap (list string) (float * float)) :
  for_each lang_model_line m lines = Ok m' ->
  forallb numeric lines = true
  /\ forall k, is_Some (m' !! k) <->
               is_Some (m !! k)
               \/ exists line, line ∈ lines /\ row_key line = Some k.
Proof.
  revert m. induction lines as [|line lines IH]; intros m; simpl.
  - intros [= <-]. split; [done|]. intros k. split; [by left|].
    intros [H|(l & Hin & _)]; [done | by apply elem_of_nil in Hin].
  - destruct (lang_model_line_cases line)
      as [[_ Hl]|[(Hnum & Hkey & Hl)|(Hnum & k0 & v & Hkey & Hl)]];
      rewrite Hl; simpl; [done| |].
    + intros Hrun. destruct (IH m Hrun) as [Hnums Hkeys].
      split; [by rewrite Hnum|]. intros k. rewrite Hkeys. split.
      * intros [H|(l & Hin & Hk)]; [by left|].
        right. exists l. split; [by apply list_elem_of_further | done].
      * intros [H|(l & Hin & Hk)]; [by left|].
        apply elem_of_cons in Hin as [->|Hin]; [congruence|].
        right. by exists l.
    + intros Hrun. destruct (IH _ Hrun) as [Hnums Hkeys].
      split; [by rewrite Hnum|]. intros k. rewrite Hkeys.
      rewrite lookup_insert_is_Some. split.
      * intros [[<-|[_ H]]|(l & Hin & Hk)].
        -- right. exists line. split; [apply list_elem_of_here | done].
        -- by left.
        -- right. exists l. split; [by apply list_elem_of_further | done].
      * intros [H|(l & Hin & Hk)].
        -- left. destruct (decide (k0 = k)); [by left | by right].
        -- apply elem_of_cons in Hin as [->|Hin].
           ++ left. left. congruence.
           ++ right. by exists l.
Qed.

(** A loop that raises met a row with a number [float] refuses, and the
    exception is that of [float]. *)
Lemma lang_model_loop_raise (lines : list string)
    (m : gmap (list string) (float * float)) :
  forallb numeric lines = false ->
  for_each lang_model_line m lines = Raise (ValueError NotAFloat).
Proof.
  revert m. induction lines as [|line lines IH]; intros m; simpl; [done|].
  destruct (lang_model_line_cases line)
    as [[_ Hl]|[(Hnum & _ & Hl)|(Hnum & k0 & v & _ & Hl)]];
    rewrite Hl; simpl; [done| |]; rewrite Hnum; simpl; apply IH.
Qed.

Lemma read_lang_model_ok (content : string) :
  forallb numeric (readlines content) = true ->
  exists m, read_lang_model content = Ok m.
Proof.
  intros Hnum.
  destruct (lang_model_loop_ok float_of_string _ ∅ Hnum) as (m & Hrun & _).
  eexists. rewrite read_lang_model_loop, Hrun. done.
Qed.

(** X2: [read_lang_model] returns a mapping exactly when [float] reads the
    numbers of every row of two columns or more (the first column, and the
    third when there is one); otherwise it raises the [ValueError] of
    [float], and no other exception. *)
Theorem read_lang_model_outcome (content : string) :
  (forallb numeric (readlines content) = true <->
   exists m, read_lang_model content = Ok m)
  /\ (forallb numeric (readlines content) = false <->
      read_lang_model content = Raise (ValueError NotAFloat)).
Proof.
  destruct (forallb numeric (readlines content)) eqn:Hnum.
  - destruct (read_lang_model_ok content Hnum) as [m Hm]. split.
    + split; [by exists m | done].
    + split; [done | by rewrite Hm].
  - assert (read_lang_model content = Raise (ValueError NotAFloat)) as Hr.
    { rewrite read_lang_model_loop, lang_model_loop_raise by done. done. }
    split.
    + split; [done|]. intros [m Hm]. by rewrite Hr in Hm.
    + done.
Qed.

(** X3: rows of fewer than two tab-separated columns (headers, counts,
    empty lines) have no effect: two files with the same rows of two
    columns or more, in the same order, have the same outcome. *)
Theorem read_lang_model_data_rows (content1 content2 : string) :
  List.filter data_row (readlines content1)
  = List.filter data_row (readlines content2) ->
  read_lang_model content1 = read_lang_model content2.
Proof.
  intros Hrows. unfold Util.read_lang_model.
  rewrite (lang_model_loop_filter (readlines content1)).
  rewrite (lang_model_loop_filter (readlines content2)).
  by rewrite Hrows.
Qed.

(** The n-gram of a row is a key of the mapping. *)
Lemma read_lang_model_has_key (content line : string)
    (m : gmap (list string) (float * float)) (k : list string) :
  read_lang_model content = Ok m ->
  line ∈ readlines content -> row_key line = Some k -> is_Some (m !! k).
Proof.
  rewrite read_lang_model_loop.
  destruct (for_each _ _ _) as [m0|e] eqn:Hrun; simpl; [|done].
  intros [= <-] Hin Hk. apply lang_model_loop_inv in Hrun as [_ Hkeys].
  apply lookup_insert_is_Some.
  destruct (decide (["<unk>"] = k)); [by left | right].
  split; [done|]. apply Hkeys. right. by exists line.
Qed.

(** X4: the keys of a mapping that [read_lang_model] returns are the
    unknown-token unigram and the token tuples of the second column of the
    rows of two columns or more, and no other. *)
Theorem read_lang_model_keys (content : string)
    (m : gmap (list string) (float * float)) (k : list string) :
  read_lang_model content = Ok m ->
  is_Some (m !! k) <->
  k = ["<unk>"]
  \/ exists line, line ∈ readlines content /\ row_key line = Some k.
Proof.
  rewrite read_lang_model_loop.
  destruct (for_each _ _ _) as [m0|e] eqn:Hrun; simpl; [|done].
  intros [= <-]. apply lang_model_loop_inv in Hrun as [_ Hkeys].
  rewrite lookup_insert_is_Some, Hkeys, lookup_empty. split.
  - intros [<-|[_ [H|H]]]; [by left | by destruct H | by right].
  - intros [->|H]; [by left|].
    destruct (decide (["<unk>"] = k)); [by left | right].
    split; [done | by right].
Qed.

(** Two rows with different n-grams can be taken in either order. *)
Lemma lang_model_line_swap {B : Type} (x y : string)
    (m : gmap (list string) (float * float))
    (rest : gmap (list string) (float * float) -> result B) :
  row_key x <> row_key y ->
  (m1 ← lang_model_line m x; m2 ← lang_model_line m1 y; rest m2)
  = (m1 ← lang_model_line m y; m2 ← lang_model_line m1 x; rest m2).
Proof.
  intros Hne.
  destruct (lang_model_line_cases x)
    as [[_ Hx]|[(_ & Hkx & Hx)|(_ & kx & vx & Hkx & Hx)]];
    destruct (lang_model_line_cases y)
      as [[_ Hy]|[(_ & Hky & Hy)|(_ & ky & vy & Hky & Hy)]];
    repeat (first [rewrite Hx | rewrite Hy]; simpl); try done.
  rewrite insert_insert_ne; [done | congruence].
Qed.

Lemma lang_model_loop_perm (l1 l2 : list string) :
  l1 ≡ₚ l2 -> NoDup (row_key <$> l1) ->
  forall m, for_each lang_model_line m l1 = for_each lang_model_line m l2.
Proof.
  induction 1 as [|x l1 l2 Hp IH|x y l|l1 l2 l3 Hp1 IH1 Hp2 IH2];
    intros Hnd m.
  - done.
  - rewrite fmap_cons in Hnd. apply NoDup_cons in Hnd as [_ Hnd]. simpl.
    destruct (lang_model_line m x); simpl; [by apply IH | done].
  - rewrite !fmap_cons in Hnd. apply NoDup_cons in Hnd as [Hne _].
    apply not_elem_of_cons in Hne as [Hne _].
    simpl. by apply lang_model_line_swap.
  - rewrite IH1 by done. apply IH2. by rewrite <- Hp1.
Qed.

(** X5: the rows of two columns or more can come in any order, as long as
    no two of them have the same n-gram: the outcome is the same, mapping
    or exception. *)
Theorem read_lang_model_row_order (content1 content2 : string) :
  List.filter data_row (readlines content1)
  ≡ₚ List.filter data_row (readlines content2) ->
  NoDup (row_key <$> List.filter data_row (readlines content1)) ->
  read_lang_model content1 = read_lang_model content2.
Proof.
  intros Hperm Hnd. unfold Util.read_lang_model.
  rewrite (lang_model_loop_filter (readlines content1)).
  rewrite (lang_model_loop_filter (readlines content2)).
  by rewrite (lang_model_loop_perm _ _ Hperm Hnd).
Qed.

(** X11: every key of a mapping that [read_lang_model] returns is a tuple
    of tokens, non-empty strings without whitespace: an n-gram is looked up
    by its words, however the file spaces them. *)
Theorem read_lang_model_key_tokens (content : string)
    (m : gmap (list string) (float * float)) (k : list string) (w : string) :
  read_lang_model content = Ok m -> is_Some (m !! k) -> w ∈ k ->
  token w = true.
Proof.
  rewrite read_lang_model_loop.
  destruct (for_each _ _ _) as [m0|e] eqn:Hrun; simpl; [|done].
  intros [= <-] Hk Hw. apply lang_model_loop_inv in Hrun as [_ Hkeys].
  apply lookup_insert_is_Some in Hk as [<-|[_ Hk]].
  - by apply list_elem_of_singleton in Hw as ->.
  - apply Hkeys in Hk as [Hk|(line & _ & Hk)].
    + rewrite lookup_empty in Hk. by destruct Hk.
    + apply row_key_tokens in Hk. rewrite Forall_forall in Hk. by apply Hk.
Qed.

End LangModel.

(** *** The phrase-table reader *)

Section PhraseTable.
Variable float_of_string : string -> option float.

Local Abbreviation record := (Util.record float_of_string).
Local Abbreviation well_formed := (Util.well_formed float_of_string).
Local Abbreviation phrase_table_line :=
  (Util.phrase_table_line float_of_string).
Local Abbreviation read_phrase_table :=
  (Util.read_phrase_table float_of_string).

(** A line that goes through states a record, and the record is entered. *)
Lemma phrase_table_line_inv (table table' : gmap string (gmap string float))
    (line : string) :
  phrase_table_line table line = Ok table' ->
  exists src trg x,
    record line = Some (src, trg, x)
    /\ table' = <[src := <[trg := x]> (default ∅ (table !! src))]> table.
Proof.
  unfold Util.phrase_table_line, Util.record, fields, py_float.
  destruct (split_on " ||| " (strip line)) as [|a [|b [|c l]]]; simpl;
    try done.
  destruct (split c) as [|p ps]; [done|].
  destruct (float_of_string p) as [x|]; simpl; [|done].
  intros [= <-]. by exists a, b, x.
Qed.

(** A loop that ends went over well-formed lines, and leaves no source
    phrase with an empty mapping when it found none. *)
Lemma phrase_table_loop_inv (lines : list string)
    (table table' : gmap string (gmap string float)) :
  for_each phrase_table_line table lines = Ok table' ->
  forallb well_formed lines = true
  /\ ((forall s d, table !! s = Some d -> d <> ∅) ->
      forall s d, table' !! s = Some d -> d <> ∅).
Proof.
  revert table. induction lines as [|line lines IH]; intros table; simpl.
  - by intros [= <-].
  - destruct (phrase_table_line table line) as [table1|e] eqn:Hline; simpl;
      [|done].
    intros Hrun. destruct (IH _ Hrun) as [Hwf Hinv].
    apply phrase_table_line_inv in Hline as (src & trg & x & Hrec & ->).
    split.
    + unfold Util.well_formed at 1. by rewrite Hrec.
    + intros Htable. apply Hinv. intros s d Hs.
      apply lookup_insert_Some in Hs as [[_ <-]|[_ Hs]].
      * apply insert_non_empty.
      * by apply (Htable s).
Qed.

(** X6: [read_phrase_table] returns a table exactly when every line of
    the file has three fields or more and a third field whose first
    whitespace-separated item [float] reads. *)
Theorem read_phrase_table_returns (content : string) :
  (exists table, read_phrase_table content = Ok table) <->
  forallb well_formed (readlines content) = true.
Proof.
  split.
  - intros [table Hrun]. by apply phrase_table_loop_inv in Hrun as [Hwf _].
  - intros Hwf.
    destruct (read_lines_ok float_of_string _ Hwf) as (table & Hrun & _).
    by exists table.
Qed.

Lemma read_phrase_table_raise (content line : string)
    (pre post : list string) (e : exn) :
  readlines content = pre ++ line :: post ->
  forallb well_formed pre = true ->
  (forall table, phrase_table_line table line = Raise e) ->
  read_phrase_table content = Raise e.
Proof.
  intros Hsplit Hpre Hline.
  destruct (read_lines_ok float_of_string _ Hpre) as (table & Hrun & _).
  unfold Util.read_phrase_table. rewrite Hsplit.
  by apply for_each_raise with table.
Qed.

(** X7: after well-formed lines, a line of three fields or more makes
    [read_phrase_table] raise [IndexError] when its third field is empty or
    whitespace, and the [ValueError] of [float] when the first item of its
    third field is no number; the fields after the third and the items
    after the first play no part. *)
Theorem read_phrase_table_third_field (content line : string)
    (pre post : list string) (src trg probabilities : string)
    (more : list string) :
  readlines content = pre ++ line :: post ->
  forallb well_formed pre = true ->
  fields line = src :: trg :: probabilities :: more ->
  (split probabilities = [] -> read_phrase_table content = Raise IndexError)
  /\ (forall p ps,
        split probabilities = p :: ps -> float_of_string p = None ->
        read_phrase_table content = Raise (ValueError NotAFloat)).
Proof.
  intros Hsplit Hpre Hfields. split.
  - intros Hblank. apply (read_phrase_table_raise _ _ _ _ _ Hsplit Hpre).
    intros table. unfold Util.phrase_table_line. fold (fields line).
    rewrite Hfields. simpl. by rewrite Hblank.
  - intros p ps Hitems Hp.
    apply (read_phrase_table_raise _ _ _ _ _ Hsplit Hpre).
    intros table. unfold Util.phrase_table_line, py_float.
    fold (fields line). rewrite Hfields. simpl. by rewrite Hitems, Hp.
Qed.

(** X8: in a table that [read_phrase_table] returns no source phrase has an
    empty mapping: each has a target phrase, with a probability that a line
    of the file states for this source and this target. *)
Theorem read_phrase_table_targets (content : string)
    (table : gmap string (gmap string float)) (src : string)
    (d : gmap string float) :
  read_phrase_table content = Ok table -> table !! src = Some d ->
  exists trg x line,
    d !! trg = Some x
    /\ line ∈ readlines content
    /\ record line = Some (src, trg, x).
Proof.
  intros Hrun Hsrc.
  destruct (phrase_table_loop_inv _ _ _ Hrun) as [Hwf Hinv].
  assert (d <> ∅) as Hd.
  { apply (Hinv ltac:(intros s d'; by rewrite lookup_empty) src d Hsrc). }
  apply map_choose in Hd as (trg & x & Htrg).
  destruct (read_lines_ok float_of_string _ Hwf) as (table0 & Hrun0 & Hlook).
  unfold Util.read_phrase_table in Hrun. rewrite Hrun in Hrun0.
  injection Hrun0 as <-.
  assert (lookup2 table src trg = Some x) as Hl.
  { unfold lookup2. rewrite Hsrc. done. }
  rewrite Hlook in Hl.
  apply last_prob_Some in Hl as (pre & line & post & Hlines & Hrec & _).
  exists trg, x, line. split; [done|]. split; [|done].
  rewrite Hlines. apply elem_of_app. right. apply list_elem_of_here.
Qed.

(** X9: an empty line, or a line of whitespace, makes [read_phrase_table]
    end in an exception; after well-formed lines it is the [ValueError] of
    the unpacking, the line having one field. *)
Theorem read_phrase_table_blank_line (content line : string) :
  line ∈ readlines content -> blank line = true ->
  (exists e, read_phrase_table content = Raise e)
  /\ (forall pre post,
        readlines content = pre ++ line :: post ->
        forallb well_formed pre = true ->
        read_phrase_table content = Raise (ValueError Unpack)).
Proof.
  intros Hin Hblank.
  assert (forall table,
            phrase_table_line table line = Raise (ValueError Unpack)) as Hl.
  { intros table. apply phrase_table_line_short.
    rewrite fields_blank by done. simpl. lia. }
  split.
  - apply for_each_raises with line; [done|]. intros st. by eexists.
  - intros pre post Hsplit Hpre.
    by apply (read_phrase_table_raise _ _ _ _ _ Hsplit Hpre).
Qed.

Lemma phrase_table_loop_records (l1 l2 : list string) :
  record <$> l1 = record <$> l2 -> forallb well_formed l1 = true ->
  forall table,
    for_each phrase_table_line table l1 = for_each phrase_table_line table l2.
Proof.
  intros Hrec%fmap_eq_Forall2.
  induction Hrec as [|a b l1 l2 Hab _ IH]; intros Hwf table; [done|].
  simpl in Hwf. apply andb_true_iff in Hwf as [Ha Hwf].
  unfold Util.well_formed in Ha.
  destruct (record a) as [[[s t] x]|] eqn:Hreca; [|done]. symmetry in Hab.
  simpl. rewrite (phrase_table_line_record _ _ _ _ _ _ Hreca).
  rewrite (phrase_table_line_record _ _ _ _ _ _ Hab). simpl. by apply IH.
Qed.

(** X12: a table depends on each line's two phrases and first probability
    only: two files of well-formed lines that agree on them line by line
    give the same table, whatever the other probabilities and the
    alignments are. *)
Theorem read_phrase_table_records (content1 content2 : string) :
  record <$> readlines content1 = record <$> readlines content2 ->
  forallb well_formed (readlines content1) = true ->
  read_phrase_table content1 = read_phrase_table content2.
Proof.
  intros Hrec Hwf. by apply phrase_table_loop_records.
Qed.

(** Entering two records with different pairs of phrases, in either
    order. *)
Lemma phrase_table_enter_swap (table : gmap string (gmap string float))
    (s1 t1 s2 t2 : string) (x1 x2 : float) :
  (s1, t1) <> (s2, t2) ->
  let table1 := <[s1 := <[t1 := x1]> (default ∅ (table !! s1))]> table in
  let table2 := <[s2 := <[t2 := x2]> (default ∅ (table !! s2))]> table in
  <[s2 := <[t2 := x2]> (default ∅ (table1 !! s2))]> table1
  = <[s1 := <[t1 := x1]> (default ∅ (table2 !! s1))]> table2.
Proof.
  intros Hne table1 table2. subst table1 table2.
  destruct (decide (s1 = s2)) as [->|Hs].
  - rewrite !lookup_insert_eq. simpl. rewrite !insert_insert_eq. f_equal.
    apply insert_insert_ne. congruence.
  - rewrite !lookup_insert_ne by done. by apply insert_insert_ne.
Qed.

Lemma phrase_table_line_swap {B : Type} (x y : string)
    (table : gmap string (gmap string float))
    (rest : gmap string (gmap string float) -> result B) :
  well_formed x = true -> well_formed y = true ->
  phrase_key float_of_string x <> phrase_key float_of_string y ->
  (t1 ← phrase_table_line table x; t2 ← phrase_table_line t1 y; rest t2)
  = (t1 ← phrase_table_line table y; t2 ← phrase_table_line t1 x; rest t2).
Proof.
  unfold Util.well_formed, phrase_key.
  destruct (record x) as [[[s1 t1] x1]|] eqn:Hx; [|done].
  destruct (record y) as [[[s2 t2] x2]|] eqn:Hy; [|done].
  intros _ _ Hne.
  rewrite (phrase_table_line_record _ table _ _ _ _ Hx).
  rewrite (phrase_table_line_record _ table _ _ _ _ Hy). simpl.
  rewrite (phrase_table_line_record _ _ _ _ _ _ Hx).
  rewrite (phrase_table_line_record _ _ _ _ _ _ Hy). simpl. f_equal.
  apply phrase_table_enter_swap. congruence.
Qed.

Lemma phrase_table_loop_perm (l1 l2 : list string) :
  l1 ≡ₚ l2 -> Forall (fun l => well_formed l = true) l1 ->
  NoDup (phrase_key float_of_string <$> l1) ->
  forall table,
    for_each phrase_table_line table l1 = for_each phrase_table_line table l2.
Proof.
  induction 1 as [|x l1 l2 Hp IH|x y l|l1 l2 l3 Hp1 IH1 Hp2 IH2];
    intros Hwf Hnd table.
  - done.
  - rewrite fmap_cons in Hnd. apply NoDup_cons in Hnd as [_ Hnd].
    apply Forall_cons in Hwf as [_ Hwf]. simpl.
    destruct (phrase_table_line table x); simpl; [by apply IH | done].
  - rewrite !fmap_cons in Hnd. apply NoDup_cons in Hnd as [Hne _].
    apply not_elem_of_cons in Hne as [Hne _].
    apply Forall_cons in Hwf as [Hy Hwf]. apply Forall_cons in Hwf as [Hx _].
    simpl. by apply phrase_table_line_swap.
  - rewrite IH1 by done. apply IH2; by rewrite <- Hp1.
Qed.

(** X13: the records of a file of well-formed lines can come in any order,
    as long as no two of them have the same source and target: the table is
    the same. *)
Theorem read_phrase_table_record_order (content1 content2 : string) :
  readlines content1 ≡ₚ readlines content2 ->
  forallb well_formed (readlines content1) = true ->
  NoDup (phrase_key float_of_string <$> readlines content1) ->
  read_phrase_table content1 = read_phrase_table content2.
Proof.
  intros Hperm Hwf Hnd. apply phrase_table_loop_perm; [done| |done].
  apply Forall_forall. intros l Hl.
  apply (proj1 (forallb_forall _ _) Hwf). by apply list_elem_of_In.
Qed.

End PhraseTable.

(** *** Whitespace around a line *)

Section Lines.
Variable float_of_string : string -> option float.

(** X14: both readers strip each line before they split it, so that the
    whitespace at either end of a line, a CR before the LF or an
    indentation, changes nothing: files with the same stripped lines have
    the same outcome. *)
Theorem readers_strip_lines (content1 content2 : string) :
  strip <$> readlines content1 = strip <$> readlines content2 ->
  read_phrase_table float_of_string content1
  = read_phrase_table float_of_string content2
  /\ read_lang_model float_of_string content1
     = read_lang_model float_of_string content2.
Proof.
  intros Hstrip%fmap_eq_Forall2. split.
  - apply for_each_ext. eapply Forall2_impl; [exact Hstrip|].
    intros a b Hab st. unfold phrase_table_line. by rewrite Hab.
  - unfold read_lang_model. f_equal.
    apply for_each_ext. eapply Forall2_impl; [exact Hstrip|].
    intros a b Hab st. unfold lang_model_line. by rewrite Hab.
Qed.

End Lines.

(** *** The path of a sample model *)

Lemma push_not_nil (c : ascii) (l : list string) : push c l <> [].
Proof. by destruct l. Qed.

Lemma split_from_not_nil (sep : string) (skip : nat) (s : string) :
  split_from sep skip s <> [].
Proof.
  revert skip. induction s as [|c s IH]; intros [|k]; try done.
  - cbn [split_from].
    destruct (String.prefix sep (String c s)); [done | apply push_not_nil].
  - cbn [split_from]. apply IH.
Qed.

Lemma push_app (c : ascii) (l1 l2 : list string) :
  l1 <> [] -> push c (l1 ++ l2) = push c l1 ++ l2.
Proof. by destruct l1. Qed.

Lemma split_on_slash (c : ascii) (s : string) :
  split_on "/" (String c s) =
  if decide (c = "/"%char) then "" :: split_on "/" s
  else push c (split_on "/" s).
Proof.
  unfold split_on. cbn [split_from].
  change (String.length "/" - 1)%nat with 0%nat.
  change (String.prefix "/" (String c s))
    with (if ascii_dec "/" c then String.prefix "" s else false).
  destruct (ascii_dec "/" c) as [<-|Hc].
  - rewrite decide_True by done. by destruct s.
  - rewrite decide_False by congruence. done.
Qed.

(** Splitting a string that was joined with a slash. *)
Lemma split_on_slash_app (a b : string) :
  split_on "/" (a +:+ "/" +:+ b) = split_on "/" a ++ split_on "/" b.
Proof.
  induction a as [|c a IH].
  - change ("" +:+ "/" +:+ b) with (String "/" b).
    by rewrite split_on_slash, decide_True.
  - change (String c a +:+ "/" +:+ b) with (String c (a +:+ "/" +:+ b)).
    rewrite !split_on_slash, IH. case_decide; [done|].
    apply push_app, split_from_not_nil.
Qed.

(** X10: the path that [get_moses_sample_model] builds, which is also what
    [get_momo] returns, splits at the slashes into the components of the
    data path, then [models] and [moses_sample], then the components of the
    approach and of the file name. *)
Theorem get_moses_sample_model_components
    (nltk_data_path approach filename : string) :
  get_momo nltk_data_path approach filename
  = get_moses_sample_model nltk_data_path approach filename
  /\ split_on "/" (get_moses_sample_model nltk_data_path approach filename)
     = split_on "/" nltk_data_path ++ ["models"; "moses_sample"]
       ++ split_on "/" approach ++ split_on "/" filename.
Proof.
  split; [done|]. unfold get_moses_sample_model.
  by rewrite !split_on_slash_app.
Qed.

(** The doctest of [get_moses_sample_model], for a data path that ends in
    [nltk_data]: the last five components of the path. *)
Example get_moses_sample_model_doctest :
  split_on "/"
    (get_moses_sample_model "/usr/share/nltk_data" "lm" "europarl.srilm.gz")
  = ["" ; "usr"; "share"]
    ++ ["nltk_data"; "models"; "moses_sample"; "lm"; "europarl.srilm.gz"].
Proof. reflexivity. Qed.

(** *** The properties on the sample files *)

Lemma read_lang_model_unk_witness :
  exists m,
    Util.read_lang_model Decimal.decimal_float Samples.arpa_file_unk = Ok m
    /\ m !! ["<unk>"] = Some ((-100)%float, 0%float).
Proof.
  destruct (read_lang_model_ok Decimal.decimal_float Samples.arpa_file_unk)
    as [m Hm]; [vm_compute; reflexivity|].
  exists m. split; [exact Hm|].
  exact (read_lang_model_unk Decimal.decimal_float _ _ Hm).
Defined.

Lemma read_lang_model_data_rows_witness :
  Util.read_lang_model Decimal.decimal_float Samples.arpa_file
  = Util.read_lang_model Decimal.decimal_float Samples.arpa_file_rows.
Proof. apply read_lang_model_data_rows. vm_compute. reflexivity. Defined.

Lemma read_lang_model_keys_witness :
  exists m,
    Util.read_lang_model Decimal.decimal_float Samples.arpa_file = Ok m
    /\ is_Some (m !! ["it"; "is"])
    /\ m !! ["ngram"; "1=2"] = None.
Proof.
  destruct (read_lang_model_ok Decimal.decimal_float Samples.arpa_file)
    as [m Hm]; [vm_compute; reflexivity|].
  exists m. split; [exact Hm|]. split.
  - apply (read_lang_model_keys _ _ _ _ Hm). right.
    exists ("-1.226477" +:+ TAB +:+ "it is" +:+ TAB +:+ "-1.013582" +:+ LF).
    split; [|reflexivity].
    apply list_elem_of_In. vm_compute. do 9 right. left. reflexivity.
  - apply eq_None_not_Some. intros Hk.
    apply (read_lang_model_keys _ _ _ _ Hm) in Hk as [Hk|(line & Hin & Hk)];
      [discriminate Hk|].
    apply list_elem_of_In in Hin. vm_compute in Hin.
    repeat (destruct Hin as [<-|Hin]; [vm_compute in Hk; discriminate Hk|]).
    destruct Hin.
Defined.

Lemma read_lang_model_row_order_witness :
  Util.read_lang_model Decimal.decimal_float Samples.arpa_file
  = Util.read_lang_model Decimal.decimal_float Samples.arpa_file_reordered.
Proof.
  apply read_lang_model_row_order.
  - assert (List.filter data_row (readlines Samples.arpa_file)
            = rev (List.filter data_row
                     (readlines Samples.arpa_file_reordered))) as ->
      by (vm_compute; reflexivity).
    symmetry. apply Permutation_rev.
  - apply (bool_decide_unpack _). vm_compute. exact I.
Defined.

Lemma read_phrase_table_third_field_witness :
  Util.read_phrase_table Decimal.decimal_float Samples.phrase_file_blank_third
  = Raise IndexError
  /\ Util.read_phrase_table Decimal.decimal_float
       Samples.phrase_file_not_a_number
     = Raise (ValueError NotAFloat).
Proof.
  split.
  - refine (proj1 (read_phrase_table_third_field Decimal.decimal_float
                     Samples.phrase_file_blank_third
                     ("haus ||| house |||   ||| 0-0" +:+ LF)
                     ["der ||| the ||| 0.3" +:+ LF] []
                     "haus" "house" " " ["0-0"] _ _ _) _);
      vm_compute; reflexivity.
  - refine (proj2 (read_phrase_table_third_field Decimal.decimal_float
                     Samples.phrase_file_not_a_number
                     ("haus ||| house ||| x" +:+ LF)
                     ["der ||| the ||| 0.3" +:+ LF] []
                     "haus" "house" "x" [] _ _ _) "x" [] _ _);
      vm_compute; reflexivity.
Defined.

Lemma read_phrase_table_targets_witness :
  exists table d trg x line,
    Util.read_phrase_table Decimal.decimal_float Samples.phrase_file = Ok table
    /\ table !! "klein" = Some d
    /\ d !! trg = Some x
    /\ line ∈ readlines Samples.phrase_file
    /\ Util.record Decimal.decimal_float line = Some ("klein", trg, x).
Proof.
  destruct (read_lines_ok Decimal.decimal_float
              (readlines Samples.phrase_file))
    as (table & Hrun & Hlook); [vm_compute; reflexivity|].
  pose proof (Hlook "klein" "small") as Hl. unfold lookup2 in Hl.
  destruct (table !! "klein") as [d|] eqn:Hd.
  - destruct (read_phrase_table_targets Decimal.decimal_float
                Samples.phrase_file table "klein" d Hrun Hd)
      as (trg & x & line & H1 & H2 & H3).
    by exists table, d, trg, x, line.
  - vm_compute in Hl. discriminate Hl.
Defined.

Lemma read_phrase_table_blank_line_witness :
  Util.read_phrase_table Decimal.decimal_float Samples.phrase_file_blank_line
  = Raise (ValueError Unpack).
Proof.
  refine (proj2 (read_phrase_table_blank_line Decimal.decimal_float
                   Samples.phrase_file_blank_line LF _ _)
                ["der ||| the ||| 0.3" +:+ LF]
                ["haus ||| house ||| 1.0" +:+ LF] _ _).
  - apply list_elem_of_In. vm_compute. right. left. reflexivity.
  - reflexivity.
  - reflexivity.
  - vm_compute. reflexivity.
Defined.

Lemma read_lang_model_key_tokens_witness :
  exists m,
    Util.read_lang_model Decimal.decimal_float Samples.arpa_file = Ok m
    /\ is_Some (m !! ["it"; "is"])
    /\ token "is" = true.
Proof.
  destruct (read_lang_model_ok Decimal.decimal_float Samples.arpa_file)
    as [m Hm]; [vm_compute; reflexivity|].
  assert (is_Some (m !! ["it"; "is"])) as Hk.
  { apply (read_lang_model_has_key Decimal.decimal_float Samples.arpa_file
             ("-1.226477" +:+ TAB +:+ "it is" +:+ TAB +:+ "-1.013582" +:+ LF)
             m _ Hm); [|reflexivity].
    apply list_elem_of_In. vm_compute. do 9 right. left. reflexivity. }
  exists m. split; [exact Hm|]. split; [exact Hk|].
  apply (read_lang_model_key_tokens Decimal.decimal_float _ m ["it"; "is"]
           "is" Hm Hk).
  apply list_elem_of_further, list_elem_of_here.
Defined.

Lemma read_phrase_table_records_witness :
  Util.read_phrase_table Decimal.decimal_float Samples.phrase_file
  = Util.read_phrase_table Decimal.decimal_float
      Samples.phrase_file_first_prob.
Proof. apply read_phrase_table_records; vm_compute; reflexivity. Defined.

Lemma read_phrase_table_record_order_witness :
  Util.read_phrase_table Decimal.decimal_float Samples.phrase_file
  = Util.read_phrase_table Decimal.decimal_float Samples.phrase_file_reversed.
Proof.
  apply read_phrase_table_record_order.
  - assert (readlines Samples.phrase_file_reversed
            = rev (readlines Samples.phrase_file)) as ->
      by (vm_compute; reflexivity).
    apply Permutation_rev.
  - vm_compute. reflexivity.
  - apply (bool_decide_unpack _). vm_compute. exact I.
Defined.

Lemma readers_strip_lines_witness :
  Util.read_phrase_table Decimal.decimal_float Samples.phrase_file_crlf
  = Util.read_phrase_table Decimal.decimal_float Samples.phrase_file_twice.
Proof.
  refine (proj1 (readers_strip_lines Decimal.decimal_float _ _ _)).
  vm_compute. reflexivity.
Defined.

End ReaderFacts.

(** ** Modified n-gram precision *)

Module BleuFacts.
Import Bleu.

(** *** The sliding window *)

Lemma ngrams_short (n : nat) (sentence : list string) :
  (length sentence < n)%nat -> ngrams n sentence = [].
Proof.
  destruct sentence as [|t rest]; [done|]. cbn [ngrams]. intros Hlen.
  destruct (n <=? length (t :: rest))%nat eqn:Hle; [|done].
  apply Nat.leb_le in Hle. lia.
Qed.

Lemma ngrams_length (n : nat) (sentence : list string) :
  (1 <= n)%nat -> length (ngrams n sentence) = (length sentence + 1 - n)%nat.
Proof.
  intros Hn. induction sentence as [|t rest IH]; [simpl; lia|].
  cbn [ngrams]. destruct (n <=? length (t :: rest))%nat eqn:Hle.
  - apply Nat.leb_le in Hle. simpl in *. rewrite IH. lia.
  - apply Nat.leb_gt in Hle. simpl in *. lia.
Qed.

(** The n-gram at position [i] is the [n] tokens that start there. *)
Lemma ngrams_lookup (n i : nat) (sentence : list string) :
  (1 <= n)%nat -> (i + n <= length sentence)%nat ->
  ngrams n sentence !! i = Some (take n (drop i sentence)).
Proof.
  intros Hn. revert i. induction sentence as [|t rest IH]; intros i Hi.
  - simpl in Hi. lia.
  - simpl in Hi. cbn [ngrams].
    destruct (n <=? length (t :: rest))%nat eqn:Hle.
    + destruct i as [|i]; [done|]. simpl. apply IH. lia.
    + apply Nat.leb_gt in Hle. simpl in Hle. lia.
Qed.

Lemma ngrams_nil_iff (n : nat) (sentence : list string) :
  (1 <= n)%nat -> ngrams n sentence = [] <-> (length sentence < n)%nat.
Proof.
  intros Hn. split; [|apply ngrams_short].
  intros Hnil. apply (f_equal length) in Hnil.
  rewrite ngrams_length in Hnil by done. simpl in Hnil. lia.
Qed.

(** *** Count tables *)

Lemma occurrences_cons (g a : list string) (grams : list (list string)) :
  occurrences g (a :: grams) =
  ((if decide (a = g) then 1 else 0) + occurrences g grams)%nat.
Proof.
  unfold occurrences. rewrite filter_cons. by case_decide.
Qed.

Lemma occurrences_absent (g : list string) (grams : list (list string)) :
  g ∉ grams -> occurrences g grams = 0%nat.
Proof.
  induction grams as [|a grams IH]; [done|]. intros Hnot.
  apply not_elem_of_cons in Hnot as [Hne Hnot].
  rewrite occurrences_cons, decide_False by done. by rewrite IH.
Qed.

Lemma occurrences_present (g : list string) (grams : list (list string)) :
  g ∈ grams -> (0 < occurrences g grams)%nat.
Proof.
  induction 1 as [g grams|g a grams _ IH]; rewrite occurrences_cons.
  - rewrite decide_True by done. lia.
  - lia.
Qed.

(** The table holds exactly the n-grams of the list, each with the number
    of its occurrences. *)
Lemma count_table_lookup (g : list string) (grams : list (list string)) :
  count_table grams !! g =
  if decide (g ∈ grams) then Some (occurrences g grams) else None.
Proof.
  induction grams as [|a grams IH].
  - rewrite decide_False by apply not_elem_of_nil. apply lookup_empty.
  - cbn [count_table foldr]. fold (count_table grams).
    rewrite occurrences_cons.
    destruct (decide (a = g)) as [->|Hne].
    + rewrite lookup_insert_eq, decide_True by apply list_elem_of_here.
      unfold count_of. rewrite IH. case_decide as Hin; simpl; [done|].
      by rewrite occurrences_absent.
    + rewrite lookup_insert_ne by done. rewrite IH.
      case_decide as Hin.
      * by rewrite decide_True by (by apply list_elem_of_further).
      * rewrite decide_False; [done|].
        intros [?|?]%elem_of_cons; congruence.
Qed.

Lemma count_of_table (g : list string) (grams : list (list string)) :
  count_of g (count_table grams) = occurrences g grams.
Proof.
  unfold count_of. rewrite count_table_lookup. case_decide; simpl; [done|].
  by rewrite occurrences_absent.
Qed.

(** The entries of the table, in some order: one per distinct n-gram. *)
Lemma count_table_entries (grams : list (list string)) :
  map_to_list (count_table grams)
  ≡ₚ (fun g => (g, occurrences g grams)) <$> remove_dups grams.
Proof.
  apply NoDup_Permutation.
  - apply NoDup_map_to_list.
  - apply NoDup_fmap_2_strong; [|apply NoDup_remove_dups].
    by intros x y _ _ [= ->].
  - intros [g c]. rewrite elem_of_map_to_list, count_table_lookup.
    rewrite list_elem_of_fmap. split.
    + case_decide as Hin; [|done]. intros [= <-].
      exists g. split; [done|]. by apply elem_of_remove_dups.
    + intros (g' & [= -> ->] & Hin). rewrite elem_of_remove_dups in Hin.
      by rewrite decide_True.
Qed.

(** A sum over the entries of the table is a sum over the distinct
    n-grams. *)
Lemma sum_list_with_fmap {A B : Type} (f : B -> nat) (h : A -> B)
    (l : list A) :
  sum_list_with f (h <$> l) = sum_list_with (fun x => f (h x)) l.
Proof. induction l as [|x l IH]; simpl; [done | f_equal; apply IH]. Qed.

Lemma table_sum (f : list string -> nat -> nat) (grams : list (list string)) :
  map_fold (fun g c acc => (f g c + acc)%nat) 0%nat (count_table grams) =
  sum_list_with (fun g => f g (occurrences g grams)) (remove_dups grams).
Proof.
  rewrite map_fold_foldr.
  transitivity (sum_list_with (fun gc : list string * nat => f gc.1 gc.2)
                  (map_to_list (count_table grams))).
  { induction (map_to_list (count_table grams)) as [|[g c] l IH]; simpl;
      [done | f_equal; apply IH]. }
  rewrite count_table_entries. apply sum_list_with_fmap.
Qed.

Lemma sum_list_with_cons {A : Type} (f : A -> nat) (x : A) (l : list A) :
  sum_list_with f (x :: l) = (f x + sum_list_with f l)%nat.
Proof. reflexivity. Qed.

Lemma sum_indicator (a : list string) (l : list (list string)) :
  NoDup l ->
  sum_list_with (fun g => if decide (a = g) then 1 else 0)%nat l =
  if decide (a ∈ l) then 1%nat else 0%nat.
Proof.
  induction 1 as [|g l Hnot _ IH].
  - destruct (decide (a ∈ [])) as [Hin|_]; [|done].
    by apply elem_of_nil in Hin.
  - rewrite sum_list_with_cons, IH.
    destruct (decide (a = g)) as [->|Hne];
      destruct (decide (_ ∈ l)) as [Hin|Hin];
      destruct (decide (_ ∈ g :: l)) as [Hin'|Hin']; try done.
    + exfalso. apply Hin'. apply list_elem_of_here.
    + exfalso. apply Hin'. by apply list_elem_of_further.
    + exfalso. apply elem_of_cons in Hin' as [?|?]; congruence.
Qed.

(** The counts of the distinct n-grams add up to the number of n-grams. *)
Lemma sum_occurrences (grams : list (list string)) :
  sum_list_with (fun g => occurrences g grams) (remove_dups grams)
  = length grams.
Proof.
  induction grams as [|a grams IH]; [done|].
  transitivity
    (sum_list_with (fun g => if decide (a = g) then 1 else 0)%nat
       (remove_dups (a :: grams))
     + sum_list_with (fun g => occurrences g grams)
         (remove_dups (a :: grams)))%nat.
  { induction (remove_dups (a :: grams)) as [|g l IHl]; simpl; [done|].
    rewrite IHl, occurrences_cons. lia. }
  rewrite sum_indicator by apply NoDup_remove_dups.
  rewrite decide_True
    by (apply elem_of_remove_dups, list_elem_of_here).
  simpl. case_decide as Hin.
  - rewrite IH. done.
  - simpl. rewrite IH, occurrences_absent by done. done.
Qed.

(** *** The value of the precision *)

Lemma max_ref_count_max_list (references : list (list string)) (n : nat)
    (g : list string) :
  max_ref_count references n g =
  max_list ((fun r => occurrences g (ngrams n r)) <$> references).
Proof.
  induction references as [|r references IH]; [done|].
  cbn [max_ref_count foldr]. fold (max_ref_count references n g).
  rewrite IH, count_of_table. reflexivity.
Qed.

Lemma numerator_sum (references : list (list string)) (n : nat)
    (grams : list (list string)) :
  numerator references n (count_table grams) =
  sum_list_with
    (fun g => Nat.min (occurrences g grams) (max_ref_count references n g))
    (remove_dups grams).
Proof. unfold numerator. by rewrite table_sum. Qed.

Lemma denominator_length (grams : list (list string)) :
  denominator (count_table grams) = length grams.
Proof.
  unfold denominator. rewrite (table_sum (fun _ c => c)).
  apply sum_occurrences.
Qed.

Lemma numerator_le_denominator (references : list (list string)) (n : nat)
    (grams : list (list string)) :
  (numerator references n (count_table grams)
   <= denominator (count_table grams))%nat.
Proof.
  rewrite numerator_sum, denominator_length, <- (sum_occurrences grams).
  induction (remove_dups grams) as [|g l IH]; [done|].
  rewrite !sum_list_with_cons. lia.
Qed.

Lemma numerator_no_reference (n : nat) (grams : list (list string)) :
  numerator [] n (count_table grams) = 0%nat.
Proof.
  rewrite numerator_sum.
  induction (remove_dups grams) as [|g l IH]; [done|].
  rewrite sum_list_with_cons, IH. cbn [max_ref_count foldr]. lia.
Qed.

Lemma ratio_zero (den : nat) : ratio 0 den = 0%Q.
Proof.
  unfold ratio. destruct (den =? 0)%nat; [done|].
  change 0%Q with (Qred 0). apply Qred_complete. reflexivity.
Qed.

Lemma ratio_bounds (num den : nat) :
  (num <= den)%nat -> (0 <= ratio num den)%Q /\ (ratio num den <= 1)%Q.
Proof.
  intros Hle. unfold ratio. destruct (den =? 0)%nat eqn:Hden.
  - split; [apply Qle_refl | discriminate].
  - apply Nat.eqb_neq in Hden. rewrite !Qred_correct.
    unfold Qle. simpl.
    assert (Z.pos (Pos.of_nat den) = Z.of_nat den) as ->.
    { rewrite <- positive_nat_Z, Nat2Pos.id by done. done. }
    lia.
Qed.

Lemma modified_precision_value (references : list (list string))
    (candidate : list string) (n : Z) :
  (1 <= n)%Z ->
  modified_precision references candidate n =
  Value (ratio (numerator references (Z.to_nat n)
                  (count_table (ngrams (Z.to_nat n) candidate)))
               (denominator (count_table (ngrams (Z.to_nat n) candidate)))).
Proof.
  intros Hn. unfold modified_precision.
  destruct (n <=? 0)%Z eqn:Hle; [|done]. apply Z.leb_le in Hle. lia.
Qed.

(** The precision computed on the lists of n-grams, without count
    tables. *)
Lemma modified_precision_sum (references : list (list string))
    (candidate : list string) (n : Z) :
  (1 <= n)%Z ->
  modified_precision references candidate n =
  Value
    (ratio
       (sum_list_with
          (fun g =>
             Nat.min (occurrences g (ngrams (Z.to_nat n) candidate))
               (max_list ((fun r => occurrences g (ngrams (Z.to_nat n) r))
                          <$> references)))
          (remove_dups (ngrams (Z.to_nat n) candidate)))
       (length (ngrams (Z.to_nat n) candidate))).
Proof.
  intros Hn. rewrite modified_precision_value by done.
  rewrite numerator_sum, denominator_length. do 2 f_equal.
  induction (remove_dups (ngrams (Z.to_nat n) candidate)) as [|g l IH];
    [done|].
  rewrite !sum_list_with_cons, IH, max_ref_count_max_list. done.
Qed.

Lemma modified_precision_float_sum (references : list (list string))
    (candidate : list string) (n : Z) (q : Q) :
  (1 <= n)%Z ->
  ratio
    (sum_list_with
       (fun g =>
          Nat.min (occurrences g (ngrams (Z.to_nat n) candidate))
            (max_list ((fun r => occurrences g (ngrams (Z.to_nat n) r))
                       <$> references)))
       (remove_dups (ngrams (Z.to_nat n) candidate)))
    (length (ngrams (Z.to_nat n) candidate)) = q ->
  modified_precision references candidate n = Value q
  /\ modified_precision_float references candidate n = Some (to_float q).
Proof.
  intros Hn <-. unfold modified_precision_float.
  by rewrite modified_precision_sum.
Qed.


(** C2 (against the model of section 4.1): a candidate of fewer than [n]
    tokens has no n-gram, and its precision is 0, returned as a value. *)
Theorem modified_precision_short (references : list (list string))
    (candidate : list string) (n : Z) :
  (Z.of_nat (length candidate) < n)%Z ->
  ngrams (Z.to_nat n) candidate = []
  /\ modified_precision references candidate n = Value 0%Q.
Proof.
  intros Hlen.
  assert (ngrams (Z.to_nat n) candidate = []) as Hnil
    by (apply ngrams_short; lia).
  split; [done|]. rewrite modified_precision_value by lia.
  rewrite Hnil. reflexivity.
Qed.

(** C4 (against the model of section 4.1): for [n >= 1] the precision is a
    value; it lies between 0 and 1 when the candidate has an n-gram, and is
    0 when it has none. *)
Theorem modified_precision_range (references : list (list string))
    (candidate : list string) (n : Z) :
  (1 <= n)%Z ->
  exists q,
    modified_precision references candidate n = Value q
    /\ (ngrams (Z.to_nat n) candidate <> [] -> (0 <= q)%Q /\ (q <= 1)%Q)
    /\ (ngrams (Z.to_nat n) candidate = [] -> q = 0%Q).
Proof.
  intros Hn. eexists. split; [by apply modified_precision_value|]. split.
  - intros _. apply ratio_bounds, numerator_le_denominator.
  - intros ->. reflexivity.
Qed.

(** C6 (against the model of section 4.1): with no reference and a
    candidate that has an n-gram of order [n >= 1], the numerator is 0, the
    denominator is positive, and the precision is the value 0. *)
Theorem modified_precision_no_reference (candidate : list string) (n : Z) :
  (1 <= n)%Z ->
  ngrams (Z.to_nat n) candidate <> [] ->
  numerator [] (Z.to_nat n) (count_table (ngrams (Z.to_nat n) candidate))
  = 0%nat
  /\ (0 < denominator (count_table (ngrams (Z.to_nat n) candidate)))%nat
  /\ modified_precision [] candidate n = Value 0%Q.
Proof.
  intros Hn Hgrams. split; [apply numerator_no_reference|]. split.
  - rewrite denominator_length.
    destruct (ngrams (Z.to_nat n) candidate); [done | simpl; lia].
  - rewrite modified_precision_value by done.
    by rewrite numerator_no_reference, ratio_zero.
Qed.


Lemma modified_precision_short_witness :
  modified_precision [Samples.the_ref1; Samples.the_ref2] [] 1 = Value 0%Q.
Proof.
  assert (Z.of_nat (length (@nil string)) < 1)%Z as Hlen by (simpl; lia).
  exact (proj2 (modified_precision_short
                  [Samples.the_ref1; Samples.the_ref2] [] 1 Hlen)).
Defined.

Lemma modified_precision_range_witness :
  exists q,
    modified_precision [Samples.the_ref1; Samples.the_ref2] Samples.the_hyp 2
    = Value q
    /\ (ngrams 2 Samples.the_hyp <> [] -> (0 <= q)%Q /\ (q <= 1)%Q)
    /\ (ngrams 2 Samples.the_hyp = [] -> q = 0%Q).
Proof.
  assert (1 <= 2)%Z as Hn by lia.
  exact (modified_precision_range
           [Samples.the_ref1; Samples.the_ref2] Samples.the_hyp 2 Hn).
Defined.

Lemma modified_precision_no_reference_witness :
  numerator [] 1 (count_table (ngrams 1 Samples.the_hyp)) = 0%nat
  /\ (0 < denominator (count_table (ngrams 1 Samples.the_hyp)))%nat
  /\ modified_precision [] Samples.the_hyp 1 = Value 0%Q.
Proof.
  assert (1 <= 1)%Z as Hn by lia.
  assert (ngrams (Z.to_nat 1) Samples.the_hyp <> []) as Hgrams
    by (vm_compute; discriminate).
  exact (modified_precision_no_reference Samples.the_hyp 1 Hn Hgrams).
Defined.

(** Evaluates a scenario on the lists of n-grams. *)
Ltac scenario q :=
  refine (modified_precision_float_sum _ _ _ q _ _);
  [lia | vm_compute; reflexivity].


(** test_bleu.py leaves a full stop on the last word of the first two
    references. The token "commands." is not the token "commands" of the
    hypothesis, so that against those token sequences 16 of the 18 unigrams
    are credited; the bigrams are credited as without the full stops. *)
Example modified_precision_guide_full_stops :
  last Samples.guide_ref1 = Some "commands."
  /\ occurrences ["commands"]
       (ngrams 1 Samples.guide_ref1 ++ ngrams 1 Samples.guide_ref2
        ++ ngrams 1 Samples.guide_ref3) = 0%nat
  /\ (modified_precision
        [Samples.guide_ref1; Samples.guide_ref2; Samples.guide_ref3]
        Samples.guide_hyp1 1 = Value (8 # 9)
      /\ modified_precision_float
           [Samples.guide_ref1; Samples.guide_ref2; Samples.guide_ref3]
           Samples.guide_hyp1 1 = Some 0.8888888888888888%float)
  /\ (modified_precision
        [Samples.guide_ref1; Samples.guide_ref2; Samples.guide_ref3]
        Samples.guide_hyp1 2 = Value (10 # 17)
      /\ modified_precision_float
           [Samples.guide_ref1; Samples.guide_ref2; Samples.guide_ref3]
           Samples.guide_hyp1 2 = Some 0.5882352941176471%float).
Proof.
  split; [reflexivity|]. split; [vm_compute; reflexivity|].
  split; [scenario (8 # 9) | scenario (10 # 17)].
Qed.

Ltac scenario_float q :=
  refine (proj2 (modified_precision_float_sum _ _ _ q _ _));
  [lia | vm_compute; reflexivity].

(** The other assertions of test_bleu.py. *)
Example modified_precision_of_the :
  modified_precision_float
    [Samples.guide_ref1; Samples.guide_ref2; Samples.guide_ref3]
    ["of"; "the"] 1 = Some 1%float
  /\ modified_precision_float
       [Samples.guide_ref1; Samples.guide_ref2; Samples.guide_ref3]
       ["of"; "the"] 2 = Some 1%float.
Proof. split; [scenario_float (1 # 1) | scenario_float (1 # 1)]. Qed.

Example modified_precision_hyp2 :
  modified_precision_float
    [Samples.guide_ref1; Samples.guide_ref2; Samples.guide_ref3]
    Samples.guide_hyp2 1 = Some 0.5714285714285714%float
  /\ modified_precision_float
       [Samples.guide_ref1; Samples.guide_ref2; Samples.guide_ref3]
       Samples.guide_hyp2 2 = Some 0.07692307692307693%float.
Proof. split; [scenario_float (4 # 7) | scenario_float (1 # 13)]. Qed.

(** The maximum over the references, not their sum: "the" occurs twice in
    the first reference and once in the second, and is credited twice. *)
Example max_not_sum :
  max_ref_count [Samples.the_ref1; Samples.the_ref2] 1 ["the"] = 2%nat.
Proof. rewrite max_ref_count_max_list. vm_compute. reflexivity. Qed.

End BleuFacts.
